(** * SpiffWorkflow.bpmn.PythonScriptEngine: [Box] and [PythonScriptEngine]

    A shallow embedding of [SpiffWorkflow/bpmn/PythonScriptEngine.py].
    Python values are a tree type; a [dict] is an association list in
    insertion order (as Python keeps it), [Box] is a dict subclass that
    owns a second store, the instance [__dict__].  The methods write the
    objects they are given: a function that does so returns, next to its
    outcome, the object as the call leaves it, and the dicts an engine
    method works on ([self.globals], the caller's [data], the copies and
    the new dicts of the call) are cells of a store.  [eval] and [exec]
    are builtins of the host language: the engine is defined in a Section
    over them, and a small interpreter for a fragment of Python
    instantiates them on concrete scripts. *)

From Stdlib Require Import List String Ascii ZArith Bool Lia.
Import ListNotations.
Local Open Scope string_scope.
Local Open Scope Z_scope.
Set Warnings "-register-all".


(** ** Python values *)

Inductive value : Type :=
| VNone
| VBool (b : bool)
| VInt (z : Z)
| VStr (s : string)
| VList (l : list value)
| VDict (d : list (string * value))
    (* a plain dict *)
| VBox (items : list (string * value)) (attrs : list (string * value))
    (* a Box: the dict store and the instance __dict__ *)
| VObj (name : string).
    (* any other object: a module, a class, a function *)

Definition dict := list (string * value).

(** isinstance(v, dict): Box subclasses dict. *)
Definition isinstance_dict (v : value) : bool :=
  match v with VDict _ | VBox _ _ => true | _ => false end.

Definition isinstance_Box (v : value) : bool :=
  match v with VBox _ _ => true | _ => false end.

(** ** dict operations, on any payload *)

Section Dict.
Context {A : Type}.

Fixpoint dict_get (k : string) (d : list (string * A)) : option A :=
  match d with
  | [] => None
  | (k', v) :: d' => if String.eqb k k' then Some v else dict_get k d'
  end.

(* d[k] = v : an existing key keeps its position, a new one goes last *)
Fixpoint dict_set (k : string) (v : A) (d : list (string * A))
  : list (string * A) :=
  match d with
  | [] => [(k, v)]
  | (k', v') :: d' =>
      if String.eqb k k' then (k, v) :: d' else (k', v') :: dict_set k v d'
  end.

(* del d[k] *)
Definition dict_del (k : string) (d : list (string * A))
  : list (string * A) :=
  filter (fun kv => negb (String.eqb k (fst kv))) d.

Definition dict_keys (d : list (string * A)) : list string := map fst d.

Definition dict_mem (k : string) (d : list (string * A)) : bool :=
  match dict_get k d with Some _ => true | None => false end.

(* d.update(e) *)
Definition dict_update (d e : list (string * A)) : list (string * A) :=
  fold_left (fun acc kv => dict_set (fst kv) (snd kv) acc) e d.
End Dict.

(** ** Tasks, exceptions, outcomes *)

(** The engine reads only [task.data]; the name identifies the task in
    reports. *)
Record Task : Type := { task_name : string; task_data : dict }.

(** [WorkflowTaskExecException] is declared in SpiffWorkflow.bpmn.exceptions;
    an instance is recorded by the arguments of the constructor call that
    built it ([None] for an argument the call leaves out).  Every other
    exception is a class name with its [args]. *)
Inductive exn : Type :=
| WorkflowTaskExecException (task : Task) (error_msg : string)
    (exception : option exn) (line_number : option Z)
    (error_line : option string)
| PyExc (cls : string) (args : list value).

Definition is_WorkflowTaskExecException (e : exn) : bool :=
  match e with WorkflowTaskExecException _ _ _ _ _ => true | _ => false end.

(** [except Exception] catches every exception except the classes that
    derive from BaseException only. *)
Definition is_Exception (e : exn) : bool :=
  match e with
  | WorkflowTaskExecException _ _ _ _ _ => true
  | PyExc cls _ =>
      negb (existsb (String.eqb cls)
              [ "BaseException"; "SystemExit"; "KeyboardInterrupt";
                "GeneratorExit"; "CancelledError"; "BaseExceptionGroup" ])
  end.

Inductive outcome (A : Type) : Type :=
| Return (a : A)
| Raise (e : exn).
Arguments Return {A} a.
Arguments Raise {A} e.

(** ** Attribute lookup on a Box *)

Definition type_name (v : value) : string :=
  match v with
  | VNone => "NoneType"
  | VBool _ => "bool"
  | VInt _ => "int"
  | VStr _ => "str"
  | VList _ => "list"
  | VDict _ => "dict"
  | VBox _ _ => "Box"
  | VObj n => n
  end.

(** Names that the type of a Box instance resolves to a data descriptor:
    [__class__] (from object), [__dict__] and [__weakref__] (added to every
    dict subclass declared without __slots__). *)
Definition Box_data_descriptor (name : string) : bool :=
  (name =? "__class__")%string || (name =? "__dict__")%string
  || (name =? "__weakref__")%string.

(** [obj.name(...)] on a Box, for a method [name] of the class: the
    instance __dict__ is searched before the methods, so an entry stored
    under that name is what gets called.  A value that is not callable
    raises TypeError; the call of a stored module, class or function is
    not part of the embedding and is reported in the same way. *)
Definition shadowed (attrs : dict) (name : string) : option exn :=
  match dict_get name attrs with
  | Some v =>
      Some (PyExc "TypeError"
              [VStr ("'" ++ type_name v ++ "' object is not callable")])
  | None => None
  end.

(** ** class Box(dict) *)

(** Box.__setitem__ : both stores are written. *)
Definition Box_setitem (b : dict * dict) (key : string) (v : value)
  : dict * dict :=
  (dict_set key v (fst b), dict_update (snd b) [(key, v)]).

(** The writes [self[k] = ...] of Box.__init__, after
    [super().__init__(arg)] has filled the dict store. *)
Definition Box_fill (entries : dict) (b : dict * dict) : dict * dict :=
  fold_left (fun acc kv => Box_setitem acc (fst kv) (snd kv)) entries b.

(** The values the loop of Box.__init__ stores, [f v] standing for
    [Box(v) if isinstance(v, dict) else v]; the first failure ends the
    loop. *)
Section WrapEntries.
Variable f : value -> outcome value.

Fixpoint wrap_entries (l : dict) : outcome dict :=
  match l with
  | [] => Return []
  | kv :: r =>
      match f (snd kv) with
      | Raise e => Raise e
      | Return w =>
          match wrap_entries r with
          | Raise e => Raise e
          | Return r' => Return ((fst kv, w) :: r')
          end
      end
  end.
End WrapEntries.

(** [Box(v) if isinstance(v, dict) else v].  [Box(arg)], for one dict (or
    Box) argument with entries [d] and no keyword arguments, is
    [super().__init__(arg)], which fills the dict store with [d], and then
    the loop over [arg.items()]; when [arg] is a Box, [arg.items] is looked
    up on the instance. *)
Fixpoint Box_wrap (v : value) : outcome value :=
  let Box (items_method : option exn) (d : dict) : outcome value :=
    match items_method with
    | Some e => Raise e
    | None =>
        match wrap_entries Box_wrap d with
        | Raise e => Raise e
        | Return wrapped =>
            let b := Box_fill wrapped (d, []) in
            Return (VBox (fst b) (snd b))
        end
    end in
  match v with
  | VDict d => Box None d
  | VBox d attrs => Box (shadowed attrs "items") d
  | _ => Return v
  end.

(** Box(arg), [arg] a plain dict with entries [d]. *)
Definition Box_init (d : dict) : outcome value := Box_wrap (VDict d).

(** ** Item and attribute access on a Box *)

(** self[key], dict.__getitem__ *)
Definition Box_getitem (b : dict * dict) (key : string) : outcome value :=
  match dict_get key (fst b) with
  | Some v => Return v
  | None => Raise (PyExc "KeyError" [VStr key])
  end.

(** Box.__getattr__, the hook Python calls when the normal lookup fails. *)
Definition Box_getattr (b : dict * dict) (attr : string) : outcome value :=
  match Box_getitem b attr with
  | Return output => Return output
  | Raise _ =>
      Raise (PyExc "AttributeError"
               [VStr ("Dictionary has no attribute '" ++ attr ++ "' ")])
  end.

(** The other attributes found on the class.  Three of them are plain
    values: [__module__] and [__doc__], set by the class statement (the
    docstring is the text between the quotes, as CPython up to 3.12 keeps
    it), and [__hash__], which dict sets to None.  The others are the
    methods of Box, of dict and of object. *)
Definition Box_module : string := "SpiffWorkflow.bpmn.PythonScriptEngine".

Definition Box_doc : string :=
  String "010" "    Example:"
  ++ String "010" "    m = Box({'first_name': 'Eduardo'}, last_name='Pool', age=24, sports=['Soccer'])"
  ++ String "010" "    ".

Definition Box_methods : list string :=
  [ "__init__"; "__deepcopy__"; "__getattr__"; "__setattr__"; "__setitem__";
    "__getstate__"; "__setstate__"; "__delattr__"; "__delitem__";
    "clear"; "copy"; "fromkeys"; "get"; "items"; "keys"; "pop"; "popitem";
    "setdefault"; "update"; "values";
    "__contains__"; "__getitem__"; "__iter__"; "__len__"; "__reversed__";
    "__or__"; "__ror__"; "__ior__"; "__class_getitem__";
    "__eq__"; "__ne__"; "__lt__"; "__le__"; "__gt__"; "__ge__";
    "__repr__"; "__str__"; "__new__"; "__getattribute__"; "__format__";
    "__sizeof__"; "__dir__"; "__reduce__"; "__reduce_ex__";
    "__init_subclass__"; "__subclasshook__" ].

(** What the lookup of [name] on the class gives for an instance: the
    plain value, or the method bound to the instance, an object of its
    own. *)
Definition Box_class_lookup (name : string) : option value :=
  if (name =? "__module__")%string then Some (VStr Box_module)
  else if (name =? "__doc__")%string then Some (VStr Box_doc)
  else if (name =? "__hash__")%string then Some VNone
  else if existsb (String.eqb name) Box_methods
       then Some (VObj ("method " ++ name))
  else None.

Definition Box_class_attribute (name : string) : bool :=
  match Box_class_lookup name with Some _ => true | None => false end.

(** [b.name]: object.__getattribute__ looks for a data descriptor on the
    type, then in the instance __dict__, then for any other class attribute;
    when all three fail, Box.__getattr__ runs. *)
Definition getattr (b : dict * dict) (name : string) : outcome value :=
  if Box_data_descriptor name then
    Return (if (name =? "__class__")%string then VObj "Box"
            else if (name =? "__dict__")%string then VDict (snd b)
            else VNone)
  else
    match dict_get name (snd b) with
    | Some v => Return v
    | None =>
        match Box_class_lookup name with
        | Some a => Return a
        | None => Box_getattr b name
        end
    end.


(** Box.__delitem__: the dict store first, then the instance __dict__;
    either deletion raises KeyError on a missing key. *)
Definition Box_delitem (b : dict * dict) (key : string)
  : outcome unit * (dict * dict) :=
  if dict_mem key (fst b) then
    let b1 := (dict_del key (fst b), snd b) in
    if dict_mem key (snd b1) then
      (Return tt, (fst b1, dict_del key (snd b1)))
    else (Raise (PyExc "KeyError" [VStr key]), b1)
  else (Raise (PyExc "KeyError" [VStr key]), b).


(** ** PythonScriptEngine.convertToBoxSub and convertToBox *)

(** Whether two values are the same tree.  The two stores of a Box share
    the objects they hold ([Box.__setitem__] writes one object to both):
    an entry of the instance __dict__ that is the same tree as the entry of
    the dict store under the same key is taken to be that object. *)
Fixpoint value_eqb (a b : value) : bool :=
  let fix elements (l m : list value) : bool :=
    match l, m with
    | [], [] => true
    | x :: l', y :: m' => (value_eqb x y && elements l' m')%bool
    | _, _ => false
    end in
  let fix entries (l m : list (string * value)) : bool :=
    match l, m with
    | [], [] => true
    | kv :: l', kw :: m' =>
        ((fst kv =? fst kw)%string && value_eqb (snd kv) (snd kw)
         && entries l' m')%bool
    | _, _ => false
    end in
  match a, b with
  | VNone, VNone => true
  | VBool x, VBool y => Bool.eqb x y
  | VInt x, VInt y => (x =? y)%Z
  | VStr x, VStr y => (x =? y)%string
  | VList l, VList m => elements l m
  | VDict d, VDict e => entries d e
  | VBox d a', VBox e b' => (entries d e && entries a' b')%bool
  | VObj x, VObj y => (x =? y)%string
  | _, _ => false
  end.

(** The object under [key] in the dict store has changed from [old] to
    [new] in place: the instance __dict__ shows the change where it holds
    that object. *)
Definition shared_entry (key : string) (old new : value) (attrs : dict)
  : dict :=
  match dict_get key attrs with
  | Some v => if value_eqb v old then dict_set key new attrs else attrs
  | None => attrs
  end.

(** The loops [data[x] = self.convertToBoxSub(data[x])] write the object
    [data]; [f] stands for the recursive call and gives, with its outcome,
    the object it was passed as the call leaves it.  A loop gives the
    exception that ended it, if any, and [data] as it then is: the entries
    before the failing one replaced by what the calls returned, the failing
    one rewritten in place as far as its call got, the others as they
    were. *)
Section ConvertInPlace.
Variable f : value -> outcome value * value.

(** over the elements of a list *)
Fixpoint convert_elements_in_place (l : list value)
  : option exn * list value :=
  match l with
  | [] => (None, [])
  | x :: r =>
      match f x with
      | (Raise e, x') => (Some e, x' :: r)
      | (Return w, _) =>
          let (e, r') := convert_elements_in_place r in (e, w :: r')
      end
  end.

(** over the entries of a plain dict that are themselves dicts (an
    assignment to an existing key keeps the key's position) *)
Fixpoint convert_entries_in_place (l : dict) : option exn * dict :=
  match l with
  | [] => (None, [])
  | kv :: r =>
      if isinstance_dict (snd kv) then
        match f (snd kv) with
        | (Raise e, v') => (Some e, (fst kv, v') :: r)
        | (Return w, _) =>
            let (e, r') := convert_entries_in_place r in
            (e, (fst kv, w) :: r')
        end
      else
        let (e, r') := convert_entries_in_place r in (e, kv :: r')
  end.

(** over the entries of the dict store of a Box: the assignment is
    Box.__setitem__, which stores the converted value under the key in the
    instance __dict__ too *)
Fixpoint convert_Box_entries_in_place (l : dict) (attrs : dict)
  : option exn * (dict * dict) :=
  match l with
  | [] => (None, ([], attrs))
  | kv :: r =>
      if isinstance_dict (snd kv) then
        match f (snd kv) with
        | (Raise e, v') =>
            (Some e, ((fst kv, v') :: r,
                      shared_entry (fst kv) (snd kv) v' attrs))
        | (Return w, _) =>
            let (e, b) :=
              convert_Box_entries_in_place r
                (dict_update attrs [(fst kv, w)]) in
            (e, ((fst kv, w) :: fst b, snd b))
        end
      else
        let (e, b) := convert_Box_entries_in_place r attrs in
        (e, (kv :: fst b, snd b))
  end.
End ConvertInPlace.

(** [self.convertToBoxSub(data)], with the object [data] as the call
    leaves it.  A list is rewritten element by element and returned: the
    object returned is the object passed.  A dict has its dict entries
    converted in place and is then passed to [Box(data)], which builds a
    new object and writes nothing to [data].  Anything else is returned as
    it is.  On a Box, [data.keys] is looked up on the instance, and
    [Box(data)] looks up [data.items]. *)
Fixpoint convertToBoxSub_in_place (data : value) : outcome value * value :=
  match data with
  | VList l =>
      let (e, l') :=
        convert_elements_in_place convertToBoxSub_in_place l in
      (match e with
       | Some e => Raise e
       | None => Return (VList l')
       end, VList l')
  | VDict d =>
      let (e, d') := convert_entries_in_place convertToBoxSub_in_place d in
      (match e with
       | Some e => Raise e
       | None => Box_init d'
       end, VDict d')
  | VBox d attrs =>
      match shadowed attrs "keys" with
      | Some e => (Raise e, data)
      | None =>
          let (e, b) :=
            convert_Box_entries_in_place convertToBoxSub_in_place d attrs in
          (match e with
           | Some e => Raise e
           | None => Box_wrap (VBox (fst b) (snd b))
           end, VBox (fst b) (snd b))
      end
  | _ => (Return data, data)
  end.

(** What the call returns or raises. *)
Definition convertToBoxSub (data : value) : outcome value :=
  fst (convertToBoxSub_in_place data).

(** convertToBox(data), on the entries of the object [data]: they are
    replaced one after the other; when the conversion of an entry raises,
    the entries before it have been replaced and the failing one is left as
    its call left it. *)
Fixpoint convertToBox (data : dict) : option exn * dict :=
  match data with
  | [] => (None, [])
  | kv :: r =>
      match convertToBoxSub_in_place (snd kv) with
      | (Raise e, v') => (Some e, (fst kv, v') :: r)
      | (Return w, _) =>
          let (e, r') := convertToBox r in (e, (fst kv, w) :: r')
      end
  end.

(** The values the loops of the conversion compute when no call raises,
    [f] giving what a call returns. *)
Section ConvertLoops.
Variable f : value -> outcome value.

Fixpoint convert_elements (l : list value) : outcome (list value) :=
  match l with
  | [] => Return []
  | x :: r =>
      match f x with
      | Raise e => Raise e
      | Return x' =>
          match convert_elements r with
          | Raise e => Raise e
          | Return r' => Return (x' :: r')
          end
      end
  end.

Fixpoint convert_entries (l : dict) : outcome dict :=
  match l with
  | [] => Return []
  | kv :: r =>
      match (if isinstance_dict (snd kv) then f (snd kv)
             else Return (snd kv)) with
      | Raise e => Raise e
      | Return w =>
          match convert_entries r with
          | Raise e => Raise e
          | Return r' => Return ((fst kv, w) :: r')
          end
      end
  end.
End ConvertLoops.

(** ** str.splitlines and list indexing *)

Definition nl : string := String "010" EmptyString.   (* line feed *)
Definition ff : string := String "012" EmptyString.   (* form feed *)
Definition dq : string := String "034" EmptyString.   (* double quote *)

(** The line boundaries of str.splitlines, for code points below 256:
    LF, VT, FF, FS, GS, RS, NEL, and CR (alone or followed by LF). *)
Definition is_linebreak (c : ascii) : bool :=
  let n := nat_of_ascii c in
  (Nat.eqb n 10 || Nat.eqb n 11 || Nat.eqb n 12 || Nat.eqb n 28
   || Nat.eqb n 29 || Nat.eqb n 30 || Nat.eqb n 133)%bool.

Fixpoint splitlines_from (cur : string) (s : string) : list string :=
  match s with
  | EmptyString => match cur with EmptyString => [] | _ => [cur] end
  | String c s' =>
      if Nat.eqb (nat_of_ascii c) 13 then
        match s' with
        | String c' s'' =>
            if Nat.eqb (nat_of_ascii c') 10
            then cur :: splitlines_from EmptyString s''
            else cur :: splitlines_from EmptyString s'
        | EmptyString => [cur]
        end
      else if is_linebreak c then cur :: splitlines_from EmptyString s'
      else splitlines_from (cur ++ String c EmptyString) s'
  end.

Definition splitlines (s : string) : list string :=
  splitlines_from EmptyString s.

(** The physical lines of Python source text, which the line numbers of
    frames count: a line ends at LF, at CR LF or at CR, and at nothing
    else. *)
Fixpoint physical_lines_from (cur : string) (s : string) : list string :=
  match s with
  | EmptyString => [cur]
  | String c s' =>
      if Nat.eqb (nat_of_ascii c) 13 then
        match s' with
        | String c' s'' =>
            if Nat.eqb (nat_of_ascii c') 10
            then cur :: physical_lines_from EmptyString s''
            else cur :: physical_lines_from EmptyString s'
        | EmptyString => [cur; EmptyString]
        end
      else if Nat.eqb (nat_of_ascii c) 10
      then cur :: physical_lines_from EmptyString s'
      else physical_lines_from (cur ++ String c EmptyString) s'
  end.

Definition physical_lines (s : string) : list string :=
  physical_lines_from EmptyString s.

(** l[i] for i >= 0: IndexError past the end. *)
Definition list_index {A : Type} (l : list A) (i : nat) : outcome A :=
  match nth_error l i with
  | Some a => Return a
  | None => Raise (PyExc "IndexError" [VStr "list index out of range"])
  end.

(** ** Tracebacks *)

(** A traceback.FrameSummary, as far as the engine reads it; line numbers
    of frames start at 1. *)
Record FrameSummary : Type := { filename : string; lineno : positive }.

(** What [exec(script, globals, locals)] leaves behind.  It writes the
    two mappings it is given: [globals] receives [__builtins__] before the
    script is compiled and whatever the script declares global, [locals]
    the names the script binds at its top level.  The result is the two
    mappings as the statements that ran have left them, and, when a
    statement raised, the exception with [traceback.extract_tb] of its
    traceback. *)
Record exec_result : Type :=
  { globals_after : dict;
    locals_after : dict;
    raised : option (exn * list FrameSummary) }.

(** What [eval(expression, globals, locals)] gives: the value or the
    exception, and the two mappings as it leaves them. *)
Record eval_result : Type :=
  { value_of : outcome value;
    eval_globals_after : dict;
    eval_locals_after : dict }.

(** What the first argument of [evaluate] can be. *)
Inductive expression : Type :=
| Operator (op_str : string) (_matches : Task -> outcome value)
| Text (source : string).

(** ** The dict objects of a call, and the monad of the methods *)

(** The two dict objects that outlive a call: [self.globals] of the engine
    and the dict the caller passes as [data]. *)
Record state : Type := { self_globals : dict; data_obj : dict }.

(** A method names the dicts it works on: [self.globals], the caller's
    [data], and the dicts the call creates itself, numbered in the order of
    creation.  A write reaches the object named and no other. *)
Inductive ref : Type :=
| Self_globals
| Data
| Created (n : nat).

Record frame : Type := { caller : state; created : list dict }.

Definition deref (r : ref) (f : frame) : dict :=
  match r with
  | Self_globals => self_globals (caller f)
  | Data => data_obj (caller f)
  | Created n => nth n (created f) []
  end.

Fixpoint list_set {A} (n : nat) (a : A) (l : list A) : list A :=
  match l, n with
  | [], _ => []
  | _ :: l', O => a :: l'
  | x :: l', S n' => x :: list_set n' a l'
  end.

Definition assign (r : ref) (d : dict) (f : frame) : frame :=
  match r with
  | Self_globals =>
      {| caller := {| self_globals := d; data_obj := data_obj (caller f) |};
         created := created f |}
  | Data =>
      {| caller := {| self_globals := self_globals (caller f);
                      data_obj := d |};
         created := created f |}
  | Created n => {| caller := caller f; created := list_set n d (created f) |}
  end.

Definition M (A : Type) : Type := frame -> outcome A * frame.

Definition ret {A} (a : A) : M A := fun f => (Return a, f).
Definition throw {A} (e : exn) : M A := fun f => (Raise e, f).
Definition bind {A B} (m : M A) (k : A -> M B) : M B :=
  fun f => match m f with
           | (Return a, f') => k a f'
           | (Raise e, f') => (Raise e, f')
           end.
Definition lift {A} (o : outcome A) : M A := fun f => (o, f).

Notation "x <- c1 ;; c2" := (bind c1 (fun x => c2))
  (at level 61, c1 at next level, right associativity).
Notation "c1 ;;; c2" := (bind c1 (fun _ => c2))
  (at level 61, right associativity).

(** the entries of the object [r] *)
Definition read (r : ref) : M dict := fun f => (Return (deref r f), f).

Definition write (r : ref) (d : dict) : M unit :=
  fun f => (Return tt, assign r d f).

(** a new dict object *)
Definition new_dict (d : dict) : M ref :=
  fun f => (Return (Created (List.length (created f))),
            {| caller := caller f; created := (created f ++ [d])%list |}).

(** copy.copy(r): a new dict with the entries of [r]. *)
Definition copy_copy (r : ref) : M ref := d <- read r ;; new_dict d.

(** r.update(e) *)
Definition update (r : ref) (e : dict) : M unit :=
  d <- read r ;; write r (dict_update d e).

(** [self.convertToBox(data)] on the dict object [r]. *)
Definition run_convertToBox (r : ref) : M unit :=
  d <- read r ;;
  let (e, d') := convertToBox d in
  write r d' ;;;
  match e with None => ret tt | Some e => throw e end.

(** A call of a method: the dicts it creates are its own, and what is left
    of the call is its outcome and the two objects of the caller. *)
Definition call {A} (m : M A) : state -> outcome A * state :=
  fun s =>
    let (o, f) := m {| caller := s; created := [] |} in (o, caller f).

(** ** Sets of names *)

(** A set of strings, listed without repetition (the order in which Python
    prints a set is not fixed; here it is the order of insertion). *)
Definition set_of (keys : list string) : list string := nodup string_dec keys.

Definition mem (k : string) (s : list string) : bool :=
  existsb (String.eqb k) s.

(** set(a).intersection(data): iterating a dict yields its keys. *)
Definition set_intersection (s : list string) (data : dict) : list string :=
  filter (fun k => dict_mem k data) s.

(** s.update(t) *)
Definition set_update (s t : list string) : list string :=
  s ++ filter (fun k => negb (mem k s)) t.

(** ** class PythonScriptEngine *)

(** PythonScriptEngine.__init__ : the initial [self.globals]. *)
Definition PythonScriptEngine_init (scripting_additions : dict) : dict :=
  dict_update
    [ ("timedelta", VObj "timedelta"); ("datetime", VObj "datetime");
      ("dateparser", VObj "dateparser"); ("pytz", VObj "pytz");
      ("Box", VObj "Box") ]
    scripting_additions.

Definition overwrite_prefix : string :=
  "You have task data that overwrites a predefined function(s). Please change the following variable or field name(s) to something else: ".

Section Engine.
(** The builtins of the host language the engine calls. *)
Variable py_eval : string -> dict -> dict -> eval_result.
  (* eval(expression, globals, locals) *)
Variable py_exec : string -> dict -> dict -> exec_result.
  (* exec(script, globals, locals) *)
Variable py_str : exn -> string.            (* str(e) *)
Variable py_repr : string -> string.        (* repr(k) of a str *)

(** [eval] and [exec] on dict objects: what the builtin leaves in the two
    mappings is written to the objects passed. *)
Definition run_eval (expression : string) (globals locals : ref) : M value :=
  g <- read globals ;;
  l <- read locals ;;
  let r := py_eval expression g l in
  write globals (eval_globals_after r) ;;;
  write locals (eval_locals_after r) ;;;
  lift (value_of r).

Definition run_exec (script : string) (globals locals : ref)
  : M exec_result :=
  g <- read globals ;;
  l <- read locals ;;
  let r := py_exec script g l in
  write globals (globals_after r) ;;;
  write locals (locals_after r) ;;;
  ret r.

(** The text of a non-empty set of names inside an f-string. *)
Definition set_repr (s : list string) : string :=
  "{" ++ String.concat ", " (map py_repr s) ++ "}".

Definition func_overwrites (my_globals more_methods data : dict)
  : list string :=
  set_update (set_intersection (set_of (dict_keys my_globals)) data)
             (set_intersection (set_of (dict_keys more_methods)) data).

Definition check_for_overwrite (task : Task)
           (my_globals more_methods data : dict) : outcome unit :=
  let func_overwrites := func_overwrites my_globals more_methods data in
  if (0 <? Z.of_nat (List.length func_overwrites)) then
    Raise (WorkflowTaskExecException task
             (overwrite_prefix ++ set_repr func_overwrites)
             None None None)
  else Return tt.

(** The entries of [lcls] in [_evaluate], after [lcls.update(context)] and
    the loop over its keys: the entries of the context, every plain dict
    among them replaced by [Box(...)], a Box left alone.  [lcls] is a dict
    of the call, so a loop that raises leaves nothing behind. *)
Definition _evaluate_lcls (context : value) : outcome dict :=
  let lcls := match context with
              | VDict d => dict_update [] d
              | VBox d _ => dict_update [] d
              | _ => []
              end in
  wrap_entries (fun v => match v with
                         | VBox _ _ => Return v
                         | VDict d => Box_init d
                         | _ => Return v
                         end) lcls.

(** [lcls] and [globals] are objects of the call: [lcls] a new dict,
    [globals] a copy of [self.globals] (else we pollute all later evals,
    the source notes). *)
Definition _evaluate (expression : string) (context : value)
           (external_methods : dict) : state -> outcome value * state :=
  call (
    lcls <- new_dict [] ;;
    globals <- copy_copy Self_globals ;;
    entries <- lift (_evaluate_lcls context) ;;
    write lcls entries ;;;
    l <- read lcls ;;
    update globals l ;;;
    update globals external_methods ;;;
    run_eval expression globals lcls).

Definition expression_str (e : expression) : string :=
  match e with Operator s _ => s | Text s => s end.

(** The handler of [evaluate]: what [except Exception as e] raises, or
    the exception itself when the clause does not catch it. *)
Definition evaluate_except (task : Task) (expression : expression)
           (e : exn) : exn :=
  if is_Exception e then
    WorkflowTaskExecException task
      ("Error evaluating expression '" ++ expression_str expression
       ++ "', " ++ py_str e) None None None
  else e.

Definition evaluate (task : Task) (expression : expression)
  : state -> outcome value * state :=
  fun s =>
    let attempt :=
      match expression with
      | Operator _ _matches => call (lift (_matches task))
      | Text src => _evaluate src (VDict (task_data task)) []
      end in
    match attempt s with
    | (Return v, s') => (Return v, s')
    | (Raise e, s') => (Raise (evaluate_except task expression e), s')
    end.

(** The loop of the handler over [traceback.extract_tb(tb)]. *)
Fixpoint locate (script : string) (frames : list FrameSummary)
         (line_number : Z) (error_line : string) : outcome (Z * string) :=
  match frames with
  | [] => Return (line_number, error_line)
  | frameSummary :: rest =>
      if (filename frameSummary =? "<string>")%string then
        let line_number := Z.pos (lineno frameSummary) in
        match list_index (splitlines script)
                         (Pos.to_nat (lineno frameSummary) - 1) with
        | Return error_line => locate script rest line_number error_line
        | Raise e => Raise e
        end
      else locate script rest line_number error_line
  end.

(** [detail] of the handler; [":" + err.args[0]] needs a str. *)
Definition error_detail (cls : string) (args : list value)
  : outcome string :=
  match args with
  | [] => Return cls
  | VStr a :: _ => Return (cls ++ ":" ++ a)
  | a :: _ =>
      Raise (PyExc "TypeError"
               [VStr ("can only concatenate str (not " ++ dq ++ type_name a
                      ++ dq ++ ") to str")])
  end.

Definition handle_error (task : Task) (script : string) (err : exn)
           (tb : list FrameSummary) : outcome unit :=
  match err with
  | WorkflowTaskExecException _ _ _ _ _ => Raise err
  | PyExc cls args =>
      if is_Exception err then
        match error_detail cls args with
        | Raise e => Raise e
        | Return detail =>
            match locate script tb 0 EmptyString with
            | Raise e => Raise e
            | Return (line_number, error_line) =>
                Raise (WorkflowTaskExecException task detail (Some err)
                         (Some line_number) (Some error_line))
            end
        end
      else Raise err
  end.

(** [my_globals] is a copy of [self.globals], an object of the call;
    [data] is the caller's object, converted in place and passed to [exec]
    as the locals. *)
Definition execute (task : Task) (script : string)
           (external_methods : dict) : state -> outcome unit * state :=
  call (
    my_globals <- copy_copy Self_globals ;;
    g <- read my_globals ;;
    data <- read Data ;;
    lift (check_for_overwrite task g external_methods data) ;;;
    run_convertToBox Data ;;;
    data <- read Data ;;
    update my_globals data ;;;
    update my_globals external_methods ;;;
    r <- run_exec script my_globals Data ;;
    match raised r with
    | None => ret tt
    | Some (err, tb) => lift (handle_error task script err tb)
    end).
End Engine.

(** ** An interpreter for a fragment of Python

    Enough of [eval] and [exec] to run the engine on concrete scripts: a
    script is a sequence of lines [NAME = EXPR], blank lines between them;
    an expression is an atom or [ATOM OP ATOM] with the tokens separated by
    single spaces; an atom is a decimal literal, a name or a subscript
    [NAME[INT]].  A name is read as LOAD_NAME does: from the locals, then
    from the globals.  An assignment writes the locals.  Both builtins put
    [__builtins__] into a globals mapping that lacks it, before they
    compile the text.  Text outside the fragment is refused as a
    SyntaxError before anything runs. *)
Module Mini.

(** The globals mapping as [eval] and [exec] leave it in this fragment. *)
Definition with_builtins (globals : dict) : dict :=
  if dict_mem "__builtins__" globals then globals
  else dict_set "__builtins__" (VObj "builtins") globals.

Fixpoint split_on (sep : ascii) (cur : string) (s : string) : list string :=
  match s with
  | EmptyString => [cur]
  | String c s' =>
      if Ascii.eqb c sep then cur :: split_on sep EmptyString s'
      else split_on sep (cur ++ String c EmptyString) s'
  end.

Definition is_digit (c : ascii) : bool :=
  let n := nat_of_ascii c in (Nat.leb 48 n && Nat.leb n 57)%bool.

Definition is_letter (c : ascii) : bool :=
  let n := nat_of_ascii c in
  ((Nat.leb 65 n && Nat.leb n 90) || (Nat.leb 97 n && Nat.leb n 122)
   || Nat.eqb n 95)%bool.

Fixpoint all_chars (p : ascii -> bool) (s : string) : bool :=
  match s with
  | EmptyString => true
  | String c s' => (p c && all_chars p s')%bool
  end.

Definition is_number (s : string) : bool :=
  match s with EmptyString => false | _ => all_chars is_digit s end.

Definition is_identifier (s : string) : bool :=
  match s with
  | EmptyString => false
  | String c s' =>
      (is_letter c
       && all_chars (fun c => is_letter c || is_digit c) s')%bool
  end.

Fixpoint number_of (acc : Z) (s : string) : Z :=
  match s with
  | EmptyString => acc
  | String c s' => number_of (10 * acc + Z.of_nat (nat_of_ascii c - 48)) s'
  end.

Inductive atom : Type :=
| Lit (z : Z)
| Name (x : string)
| Sub (x : string) (i : Z).
Inductive expr : Type := Atom (a : atom) | BinOp (a : atom) (op : string) (b : atom).
Inductive stmt : Type := Blank | Assign (x : string) (e : expr).

Definition parse_atom (w : string) : option atom :=
  if is_number w then Some (Lit (number_of 0 w))
  else if is_identifier w then Some (Name w)
  else
    match split_on "[" EmptyString w with
    | [x; r] =>
        match split_on "]" EmptyString r with
        | [n; EmptyString] =>
            if (is_identifier x && is_number n)%bool
            then Some (Sub x (number_of 0 n))
            else None
        | _ => None
        end
    | _ => None
    end.

Definition is_op (w : string) : bool :=
  existsb (String.eqb w) ["+"; "-"; "*"; "//"; "/"].

Definition parse_expr (ws : list string) : option expr :=
  match ws with
  | [a] => option_map Atom (parse_atom a)
  | [a; op; b] =>
      match parse_atom a, parse_atom b with
      | Some a', Some b' => if is_op op then Some (BinOp a' op b') else None
      | _, _ => None
      end
  | _ => None
  end.

(* space, tab and form feed *)
Definition is_blank (c : ascii) : bool :=
  let n := nat_of_ascii c in (Nat.eqb n 32 || Nat.eqb n 9 || Nat.eqb n 12)%bool.

Definition parse_stmt (line : string) : option stmt :=
  if all_chars is_blank line then Some Blank
  else
    match split_on " " EmptyString line with
    | x :: "=" :: ws =>
        if is_identifier x then option_map (Assign x) (parse_expr ws)
        else None
    | _ => None
    end.

Fixpoint parse_lines (ls : list string) : option (list stmt) :=
  match ls with
  | [] => Some []
  | l :: ls' =>
      match parse_stmt l, parse_lines ls' with
      | Some s, Some ss => Some (s :: ss)
      | _, _ => None
      end
  end.

Definition load_name (x : string) (globals locals : dict) : outcome value :=
  match dict_get x locals with
  | Some v => Return v
  | None =>
      match dict_get x globals with
      | Some v => Return v
      | None =>
          Raise (PyExc "NameError"
                   [VStr ("name '" ++ x ++ "' is not defined")])
      end
  end.

(* x[i] with an int i: the keys of the mappings here are str, so a
   mapping never holds i *)
Definition subscript (v : value) (i : Z) : outcome value :=
  match v with
  | VDict _ | VBox _ _ => Raise (PyExc "KeyError" [VInt i])
  | VList l =>
      match nth_error l (Z.to_nat i) with
      | Some x => Return x
      | None => Raise (PyExc "IndexError" [VStr "list index out of range"])
      end
  | _ => Raise (PyExc "TypeError"
                  [VStr ("'" ++ type_name v ++ "' object is not subscriptable")])
  end.

Definition eval_atom (a : atom) (globals locals : dict) : outcome value :=
  match a with
  | Lit z => Return (VInt z)
  | Name x => load_name x globals locals
  | Sub x i =>
      match load_name x globals locals with
      | Raise e => Raise e
      | Return v => subscript v i
      end
  end.

Definition apply_op (op : string) (x y : value) : outcome value :=
  match x, y with
  | VInt a, VInt b =>
      if (op =? "+")%string then Return (VInt (a + b))
      else if (op =? "-")%string then Return (VInt (a - b))
      else if (op =? "*")%string then Return (VInt (a * b))
      else if (b =? 0) then
        Raise (PyExc "ZeroDivisionError"
                 [VStr (if (op =? "/")%string then "division by zero"
                        else "integer division or modulo by zero")])
      else if (op =? "//")%string then Return (VInt (a / b))
      else Raise (PyExc "NotImplementedError" [VStr "float result"])
  | _, _ =>
      Raise (PyExc "TypeError" [VStr ("unsupported operand type(s) for " ++ op)])
  end.

Definition eval_expr (e : expr) (globals locals : dict) : outcome value :=
  match e with
  | Atom a => eval_atom a globals locals
  | BinOp a op b =>
      match eval_atom a globals locals with
      | Raise e => Raise e
      | Return x =>
          match eval_atom b globals locals with
          | Raise e => Raise e
          | Return y => apply_op op x y
          end
      end
  end.

Definition syntax_error : exn := PyExc "SyntaxError" [VStr "invalid syntax"].

(** eval(expression, globals, locals) *)
Definition eval (expression : string) (globals locals : dict)
  : eval_result :=
  {| value_of :=
       match parse_expr (split_on " " EmptyString expression) with
       | Some e => eval_expr e (with_builtins globals) locals
       | None => Raise syntax_error
       end;
     eval_globals_after := with_builtins globals;
     eval_locals_after := locals |}.

(** The frame of [execute] itself, where the traceback seen by the
    handler starts. *)
Definition engine_frame : FrameSummary :=
  {| filename := "SpiffWorkflow/bpmn/PythonScriptEngine.py";
     lineno := 183 |}.

Fixpoint run (ss : list stmt) (line : positive) (globals locals : dict)
  : exec_result :=
  match ss with
  | [] => {| globals_after := globals;
             locals_after := locals; raised := None |}
  | Blank :: ss' => run ss' (Pos.succ line) globals locals
  | Assign x e :: ss' =>
      match eval_expr e globals locals with
      | Return v => run ss' (Pos.succ line) globals (dict_set x v locals)
      | Raise err =>
          {| globals_after := globals;
             locals_after := locals;
             raised := Some (err, [ engine_frame;
                                    {| filename := "<string>";
                                       lineno := line |} ]) |}
      end
  end.

(** exec(script, globals, locals) *)
Definition exec (script : string) (globals locals : dict) : exec_result :=
  match parse_lines (physical_lines script) with
  | Some ss => run ss 1 (with_builtins globals) locals
  | None => {| globals_after := with_builtins globals;
               locals_after := locals;
               raised := Some (syntax_error, [engine_frame]) |}
  end.

(** str(e) and repr(k), for the exceptions and the names of the
    fragment. *)
Definition str (e : exn) : string :=
  match e with
  | WorkflowTaskExecException _ msg _ _ _ => msg
  | PyExc _ (VStr a :: _) => a
  | PyExc _ _ => EmptyString
  end.

Definition repr (k : string) : string := "'" ++ k ++ "'".
End Mini.


(** ** Notions used by the statements *)

(** [sub] occurs inside [s]. *)
Definition contains (sub s : string) : Prop :=
  exists pre post, s = pre ++ sub ++ post.

(** A key of [data] collides when the engine bindings or the extensions
    bind it too. *)
Definition collides (my_globals more_methods data : dict) (k : string)
  : Prop :=
  dict_mem k data = true
  /\ (dict_mem k my_globals = true \/ dict_mem k more_methods = true).

(** What [execute] does once the guard has let the call through. *)
Definition execute_after_guard
           (py_exec : string -> dict -> dict -> exec_result)
           (task : Task) (script : string) (external_methods : dict)
           (s : state) : outcome unit * state :=
  match convertToBox (data_obj s) with
  | (Some e, data) =>
      (Raise e, {| self_globals := self_globals s; data_obj := data |})
  | (None, data) =>
      let my_globals :=
        dict_update (dict_update (self_globals s) data) external_methods in
      let r := py_exec script my_globals data in
      (match raised r with
       | None => Return tt
       | Some (err, tb) => handle_error task script err tb
       end,
       {| self_globals := self_globals s; data_obj := locals_after r |})
  end.

(** ** Concrete inputs *)

Definition demo_task : Task := {| task_name := "task"; task_data := [] |}.

(** An engine built without scripting additions, and the caller's data. *)
Definition state_of (data : dict) : state :=
  {| self_globals := PythonScriptEngine_init []; data_obj := data |}.

(** An error already in the classified shape, as a nested call of the
    engine raises it, and interpreters whose run meets it: the expression
    or the script calls a function that raises [inner_error]. *)
Definition inner_error : exn :=
  WorkflowTaskExecException demo_task "inner detail" None (Some 3)
                            (Some "x = f()").

Definition eval_raising (e : exn) : string -> dict -> dict -> eval_result :=
  fun _ globals locals =>
    {| value_of := Raise e;
       eval_globals_after := Mini.with_builtins globals;
       eval_locals_after := locals |}.

(** An expression that reads the name [x] inside a nested scope, as
    [(lambda: x)()] does: code in a function reads its free names from the
    globals, not from the locals of the call of [eval]. *)
Definition eval_in_nested_scope (x : string)
  : string -> dict -> dict -> eval_result :=
  fun _ globals locals =>
    {| value_of :=
         match dict_get x (Mini.with_builtins globals) with
         | Some v => Return v
         | None => Raise (PyExc "NameError"
                            [VStr ("name '" ++ x ++ "' is not defined")])
         end;
       eval_globals_after := Mini.with_builtins globals;
       eval_locals_after := locals |}.

Definition exec_raising (e : exn) (tb : list FrameSummary)
  : string -> dict -> dict -> exec_result :=
  fun _ globals locals =>
    {| globals_after := Mini.with_builtins globals;
       locals_after := locals; raised := Some (e, tb) |}.

(** The frames of a traceback whose file is the script text, the last of
    them, and the position reported for it: its line number with entry
    [lineno], counted from 1, of [script.splitlines()]; [(0, empty)]
    without such a frame. *)
Definition is_script_frame (f : FrameSummary) : bool :=
  (filename f =? "<string>")%string.

Definition last_script_frame (tb : list FrameSummary) : option FrameSummary :=
  hd_error (rev (filter is_script_frame tb)).

Definition located (script : string) (tb : list FrameSummary) : Z * string :=
  match last_script_frame tb with
  | None => (0, EmptyString)
  | Some f => (Z.pos (lineno f),
               nth (Pos.to_nat (lineno f) - 1) (splitlines script)
                   EmptyString)
  end.

(** The arguments [execute] calls [exec] with, after the guard and the
    conversion of the data. *)
Definition exec_locals (s : state) : dict := snd (convertToBox (data_obj s)).

Definition exec_globals (s : state) (ext : dict) : dict :=
  dict_update (dict_update (self_globals s) (exec_locals s)) ext.

Definition script_div0 : string := "a = 1" ++ nl ++ "b = a / 0" ++ nl.

(** The same statements with a form feed on a line of its own between
    them, and a script whose failure carries an int as first argument. *)
Definition script_formfeed : string :=
  "a = 1" ++ nl ++ ff ++ nl ++ "b = a / 0" ++ nl.

Definition script_keyerror : string := "x = d[1]".

(** ** Shapes of values *)

(** The entries of a mapping: of a plain dict, or of the dict store of a
    Box. *)
Definition mapping_entries (m : value) : dict :=
  match m with
  | VDict d => d
  | VBox d _ => d
  | _ => []
  end.





(** The keys of a dict are distinct, as they are in Python. *)
Fixpoint distinct (l : list string) : bool :=
  match l with
  | [] => true
  | x :: r => (negb (mem x r) && distinct r)%bool
  end.


(** An AttributeMap: a Box whose two stores hold the same entries and
    whose mapping values are AttributeMaps again. *)
Fixpoint AttributeMap (v : value) : Prop :=
  match v with
  | VBox items attrs =>
      attrs = items
      /\ distinct (map fst items) = true
      /\ (fix entries (l : dict) : Prop :=
            match l with
            | [] => True
            | kv :: r =>
                match snd kv with
                | VDict _ => False
                | VBox _ _ => AttributeMap (snd kv)
                | _ => True
                end /\ entries r
            end) items
  | _ => False
  end.

(** The mapping values of a dict are AttributeMaps. *)
Definition entries_wrapped (l : dict) : Prop :=
  Forall (fun kv => match snd kv with
                    | VDict _ => False
                    | VBox _ _ => AttributeMap (snd kv)
                    | _ => True
                    end) l.


(** How code run by [eval] or [exec] with separate mappings reads a name
    at its top level (LOAD_NAME): the locals first, then the globals. *)
Definition resolve (x : string) (globals locals : dict) : option value :=
  match dict_get x locals with
  | Some v => Some v
  | None => dict_get x globals
  end.

(** The globals [_evaluate] builds around its locals. *)
Definition eval_globals (s : state) (lcls ext : dict) : dict :=
  dict_update (dict_update (self_globals s) lcls) ext.


(** No dict or Box inside [v] has a key named after the methods [items]
    and [keys], which the conversions call on the mappings they meet. *)
Definition no_method_keys (d : dict) : bool :=
  (negb (dict_mem "items" d) && negb (dict_mem "keys" d))%bool.

Fixpoint method_free (v : value) : bool :=
  match v with
  | VList l => forallb method_free l
  | VDict d =>
      (no_method_keys d && forallb (fun kv => method_free (snd kv)) d)%bool
  | VBox items attrs =>
      (no_method_keys items
       && forallb (fun kv => method_free (snd kv)) items
       && no_method_keys attrs
       && forallb (fun kv => method_free (snd kv)) attrs)%bool
  | _ => true
  end.

(** Box({'items': 1}) *)
Definition box_items : value :=
  VBox [("items", VInt 1)] [("items", VInt 1)].

(** ** The other methods of Box *)

(** The loop [for k, v in ...: self[k] = Box(v) if isinstance(v, dict)
    else v] on the stores of [self]; when [Box(v)] raises, the entries
    before it have been written. *)
Fixpoint Box_store (entries : dict) (b : dict * dict)
  : outcome unit * (dict * dict) :=
  match entries with
  | [] => (Return tt, b)
  | kv :: r =>
      match Box_wrap (snd kv) with
      | Raise e => (Raise e, b)
      | Return w => Box_store r (Box_setitem b (fst kv) w)
      end
  end.

Section BoxMethods.
(** Library code the methods call: what [dict.__init__] makes of a
    positional argument that is not a mapping (an iterable of key/value
    pairs), and [copy.deepcopy]. *)
Variable dict_of_iterable : value -> outcome dict.
Variable py_deepcopy : value -> outcome value.

(** Box.__init__ with its positional and keyword arguments, for at most
    one positional argument (dict.__init__ refuses more): [super().__init__] merges the
    argument and then the keyword arguments into the dict store; the loop
    runs over a positional argument that is a dict, then over the keyword
    arguments. *)
Definition Box___init__ (self : dict * dict) (arg : option value)
           (kwargs : dict) : outcome unit * (dict * dict) :=
  let merged :=
    match arg with
    | None => Return (fst self)
    | Some (VDict d) => Return (dict_update (fst self) d)
    | Some (VBox d _) => Return (dict_update (fst self) d)
    | Some v =>
        match dict_of_iterable v with
        | Raise e => Raise e
        | Return d => Return (dict_update (fst self) d)
        end
    end in
  match merged with
  | Raise e => (Raise e, self)
  | Return items =>
      let b := (dict_update items kwargs, snd self) in
      let after_arg :=
        match arg with
        | Some (VDict d) => Box_store d b
        | Some (VBox d attrs) =>
            match shadowed attrs "items" with
            | Some e => (Raise e, b)
            | None => Box_store d b
            end
        | _ => (Return tt, b)
        end in
      match after_arg with
      | (Raise e, b') => (Raise e, b')
      | (Return _, b') => Box_store kwargs b'
      end
  end.

(** A call of the class Box: a new object, empty before __init__ runs. *)
Definition Box_new (arg : option value) (kwargs : dict) : outcome value :=
  match Box___init__ ([], []) arg kwargs with
  | (Return _, b) => Return (VBox (fst b) (snd b))
  | (Raise e, _) => Raise e
  end.



End BoxMethods.

(** No mapping inside [v]. *)
Fixpoint mapping_free (v : value) : bool :=
  match v with
  | VList l => forallb mapping_free l
  | VDict _ | VBox _ _ => false
  | _ => true
  end.

(** The names bound by an engine built without scripting additions. *)
Definition default_names : list string :=
  ["timedelta"; "datetime"; "dateparser"; "pytz"; "Box"].
(** * Properties *)

(** ** Dictionaries *)

Section DictFacts.
Context {A : Type}.
Implicit Types (d e : list (string * A)) (k : string).

Lemma dict_get_set_same k (v : A) d : dict_get k (dict_set k v d) = Some v.
Proof.
  induction d as [|[k' v'] d IH]; simpl.
  - now rewrite String.eqb_refl.
  - destruct (String.eqb k k') eqn:E; simpl.
    + now rewrite String.eqb_refl.
    + now rewrite E.
Qed.

Lemma dict_get_set_other k k' (v : A) d :
  k <> k' -> dict_get k' (dict_set k v d) = dict_get k' d.
Proof.
  intros Hne. induction d as [|[k0 v0] d IH]; simpl.
  - destruct (String.eqb k' k) eqn:E; [|reflexivity].
    apply String.eqb_eq in E. congruence.
  - destruct (String.eqb k k0) eqn:E; simpl.
    + apply String.eqb_eq in E. subst k0.
      destruct (String.eqb k' k) eqn:E'; [|reflexivity].
      apply String.eqb_eq in E'. congruence.
    + now rewrite IH.
Qed.

Lemma dict_get_set k k' (v : A) d :
  dict_get k' (dict_set k v d)
  = if String.eqb k' k then Some v else dict_get k' d.
Proof.
  destruct (String.eqb k' k) eqn:E.
  - apply String.eqb_eq in E. subst. apply dict_get_set_same.
  - apply dict_get_set_other. intros ->. now rewrite String.eqb_refl in E.
Qed.

Lemma dict_mem_In k d : dict_mem k d = true <-> In k (dict_keys d).
Proof.
  unfold dict_mem, dict_keys.
  induction d as [|[k' v'] d IH]; simpl.
  - split; [discriminate | tauto].
  - destruct (String.eqb k k') eqn:E.
    + apply String.eqb_eq in E. subst. tauto.
    + rewrite IH. split; [tauto|]. intros [->|H]; [|exact H].
      now rewrite String.eqb_refl in E.
Qed.

Lemma dict_get_None_not_In k d :
  dict_get k d = None <-> ~ In k (dict_keys d).
Proof.
  rewrite <- dict_mem_In. unfold dict_mem.
  destruct (dict_get k d); split; intros H.
  - discriminate.
  - exfalso. now apply H.
  - discriminate.
  - reflexivity.
Qed.

(** After [d.update(e)] a key of [e] holds what [e] gives it (its last
    entry, should the list repeat the key); any other key is untouched. *)
Lemma dict_get_update k d e :
  dict_get k (dict_update d e)
  = match dict_get k (rev e) with
    | Some v => Some v
    | None => dict_get k d
    end.
Proof.
  unfold dict_update. revert d.
  induction e as [|[k0 v0] e IH]; intros d; simpl; [reflexivity|].
  rewrite IH. clear IH.
  assert (Happ : forall l, dict_get k (l ++ [(k0, v0)])
                 = match dict_get k l with
                   | Some v => Some v
                   | None => if String.eqb k k0 then Some v0 else None
                   end).
  { induction l as [|[k1 v1] l IHl]; simpl; [reflexivity|].
    destruct (String.eqb k k1); [reflexivity | exact IHl]. }
  rewrite Happ. destruct (dict_get k (rev e)); [reflexivity|].
  rewrite dict_get_set. now destruct (String.eqb k k0).
Qed.

Lemma dict_get_rev_unique k d :
  NoDup (dict_keys d) -> dict_get k (rev d) = dict_get k d.
Proof.
  unfold dict_keys.
  induction d as [|[k0 v0] d IH]; intros Hnd; simpl; [reflexivity|].
  inversion Hnd as [|? ? Hnotin Hnd']; subst.
  assert (Happ : forall l, dict_get k (l ++ [(k0, v0)])
                 = match dict_get k l with
                   | Some v => Some v
                   | None => if String.eqb k k0 then Some v0 else None
                   end).
  { induction l as [|[k1 v1] l IHl]; simpl; [reflexivity|].
    destruct (String.eqb k k1); [reflexivity | exact IHl]. }
  rewrite Happ, (IH Hnd').
  destruct (String.eqb k k0) eqn:E.
  - apply String.eqb_eq in E. subst k0.
    apply dict_get_None_not_In in Hnotin. now rewrite Hnotin.
  - now destruct (dict_get k d).
Qed.

Lemma dict_update_nil_unique d :
  NoDup (dict_keys d) -> dict_update [] d = d.
Proof.
  intros Hnd.
  enough (H : forall acc, (forall k, In k (dict_keys d) ->
                                ~ In k (dict_keys acc)) ->
                     dict_update acc d = (acc ++ d)%list).
  { apply (H []). intros k _ []. }
  unfold dict_update, dict_keys in *.
  induction d as [|[k0 v0] d IH]; intros acc Hfresh; simpl.
  - now rewrite app_nil_r.
  - inversion Hnd as [|? ? Hnotin Hnd']; subst.
    assert (Hset : dict_set k0 v0 acc = (acc ++ [(k0, v0)])%list).
    { assert (Hk : ~ In k0 (map fst acc)) by (apply Hfresh; now left).
      clear - Hk. induction acc as [|[k1 v1] acc IHa]; simpl; [reflexivity|].
      destruct (String.eqb k0 k1) eqn:E.
      - apply String.eqb_eq in E. subst. exfalso. apply Hk. now left.
      - rewrite IHa; [reflexivity|]. intros H. apply Hk. now right. }
    rewrite Hset, (IH Hnd').
    + now rewrite <- app_assoc.
    + intros k Hk. rewrite map_app, in_app_iff. simpl.
      intros [H|[->|[]]].
      * apply (Hfresh k); [now right | exact H].
      * now apply Hnotin.
Qed.
End DictFacts.

(** ** Strings and sets of names *)

Lemma string_app_assoc (a b c : string) : (a ++ b) ++ c = a ++ (b ++ c).
Proof. induction a; simpl; congruence. Qed.

Lemma string_app_nil_r (a : string) : a ++ EmptyString = a.
Proof. induction a; simpl; congruence. Qed.

Lemma contains_app_l sub a b : contains sub a -> contains sub (a ++ b).
Proof.
  intros (pre & post & ->). exists pre, (post ++ b).
  now rewrite !string_app_assoc.
Qed.

Lemma contains_app_r sub a b : contains sub b -> contains sub (a ++ b).
Proof.
  intros (pre & post & ->). exists (a ++ pre), post.
  now rewrite !string_app_assoc.
Qed.

Lemma contains_refl s : contains s s.
Proof. exists EmptyString, EmptyString. simpl. now rewrite string_app_nil_r. Qed.

Lemma contains_concat sep x (l : list string) :
  In x l -> contains x (String.concat sep l).
Proof.
  induction l as [|y l IH]; intros Hin; [destruct Hin|].
  destruct Hin as [->|Hin].
  - destruct l; simpl; [apply contains_refl|].
    apply contains_app_l, contains_refl.
  - specialize (IH Hin). destruct l as [|z l]; [destruct Hin|].
    change (String.concat sep (y :: z :: l))
      with (y ++ sep ++ String.concat sep (z :: l)).
    now apply contains_app_r, contains_app_r.
Qed.

Lemma mem_In k (s : list string) : mem k s = true <-> In k s.
Proof.
  unfold mem. rewrite existsb_exists. split.
  - intros (x & Hx & E). apply String.eqb_eq in E. now subst.
  - intros H. exists k. split; [exact H | apply String.eqb_refl].
Qed.

Lemma distinct_NoDup l : distinct l = true <-> NoDup l.
Proof.
  induction l as [|x l IH]; simpl.
  - split; [constructor | reflexivity].
  - rewrite andb_true_iff, negb_true_iff, IH. split.
    + intros [Hm Hnd]. constructor; [|exact Hnd].
      intros Hin. apply mem_In in Hin. congruence.
    + intros Hnd. inversion Hnd as [|? ? Hnotin Hnd']; subst.
      split; [|exact Hnd'].
      destruct (mem x l) eqn:E; [|reflexivity].
      apply mem_In in E. contradiction.
Qed.

Lemma In_set_intersection k (s : list string) (data : dict) :
  In k (set_intersection s data) <-> In k s /\ dict_mem k data = true.
Proof. unfold set_intersection. apply filter_In. Qed.

Lemma In_set_update k (s t : list string) :
  In k (set_update s t) <-> In k s \/ In k t.
Proof.
  unfold set_update. rewrite in_app_iff, filter_In. split.
  - tauto.
  - intros [H|H]; [now left|].
    destruct (mem k s) eqn:E.
    + left. now apply mem_In.
    + right. now split.
Qed.

Lemma In_func_overwrites k (g ext data : dict) :
  In k (func_overwrites g ext data) <-> collides g ext data k.
Proof.
  unfold func_overwrites, collides, set_of.
  rewrite In_set_update, !In_set_intersection, !nodup_In, <- !dict_mem_In.
  tauto.
Qed.

Lemma execute_unfold py_exec py_repr task script ext s :
  execute py_exec py_repr task script ext s
  = match check_for_overwrite py_repr task (self_globals s) ext (data_obj s)
    with
    | Raise e => (Raise e, s)
    | Return _ => execute_after_guard py_exec task script ext s
    end.
Proof.
  unfold execute, execute_after_guard, call, run_exec, run_convertToBox,
    copy_copy, update, new_dict, read, write, bind, lift, ret, throw.
  cbn.
  destruct (check_for_overwrite py_repr task (self_globals s) ext (data_obj s));
    [|reflexivity].
  destruct (convertToBox (data_obj s)) as [[e|] data]; [reflexivity|].
  cbn. destruct (raised (py_exec _ _ _)) as [[err tb]|]; reflexivity.
Qed.

Lemma check_for_overwrite_cases py_repr task g ext data :
  check_for_overwrite py_repr task g ext data
  = match func_overwrites g ext data with
    | [] => Return tt
    | _ :: _ =>
        Raise (WorkflowTaskExecException task
                 (overwrite_prefix
                  ++ set_repr py_repr (func_overwrites g ext data))
                 None None None)
    end.
Proof.
  unfold check_for_overwrite.
  destruct (func_overwrites g ext data); reflexivity.
Qed.

(** The guard refuses a call with a collision before anything else
    happens, and lets any other call through. *)
Lemma execute_collision py_exec py_repr task script ext s k :
  collides (self_globals s) ext (data_obj s) k ->
  execute py_exec py_repr task script ext s
  = (Raise (WorkflowTaskExecException task
              (overwrite_prefix
               ++ set_repr py_repr
                    (func_overwrites (self_globals s) ext (data_obj s)))
              None None None), s).
Proof.
  intros Hk. rewrite execute_unfold, check_for_overwrite_cases.
  apply In_func_overwrites in Hk.
  destruct (func_overwrites _ _ _); [destruct Hk | reflexivity].
Qed.

Lemma no_collision_func_overwrites g ext data :
  (forall k, ~ collides g ext data k) -> func_overwrites g ext data = [].
Proof.
  intros Hnone.
  destruct (func_overwrites g ext data) as [|k l] eqn:E; [reflexivity|].
  exfalso. apply (Hnone k). apply In_func_overwrites. rewrite E. now left.
Qed.

Lemma execute_no_collision py_exec py_repr task script ext s :
  (forall k, ~ collides (self_globals s) ext (data_obj s) k) ->
  execute py_exec py_repr task script ext s
  = execute_after_guard py_exec task script ext s.
Proof.
  intros Hnone. rewrite execute_unfold, check_for_overwrite_cases.
  now rewrite (no_collision_func_overwrites _ _ _ Hnone).
Qed.

(** C1. [execute] raises the name-shadowing error exactly when a key of
    [data] is also a key of the engine bindings or of the extensions: the
    error's detail then contains the repr of every colliding key and the
    outcome does not depend on the interpreter, which is never called;
    without a collision the guard returns normally and the call is the run
    of the script. *)
Theorem execute_name_shadowing
        (py_exec : string -> dict -> dict -> exec_result)
        (py_repr : string -> string)
        (task : Task) (script : string) (ext : dict) (s : state) :
  ((exists k, collides (self_globals s) ext (data_obj s) k) ->
   exists msg,
     execute py_exec py_repr task script ext s
     = (Raise (WorkflowTaskExecException task msg None None None), s)
     /\ (forall k, collides (self_globals s) ext (data_obj s) k ->
                   contains (py_repr k) msg)
     /\ (forall py_exec',
            execute py_exec' py_repr task script ext s
            = execute py_exec py_repr task script ext s))
  /\ ((forall k, ~ collides (self_globals s) ext (data_obj s) k) ->
      check_for_overwrite py_repr task (self_globals s) ext (data_obj s)
      = Return tt
      /\ execute py_exec py_repr task script ext s
         = execute_after_guard py_exec task script ext s).
Proof.
  split.
  - intros (k0 & Hk0).
    exists (overwrite_prefix
            ++ set_repr py_repr
                 (func_overwrites (self_globals s) ext (data_obj s))).
    split; [now apply execute_collision with (k := k0)|]. split.
    + intros k Hk. apply contains_app_r. unfold set_repr.
      apply contains_app_r, contains_app_l, contains_concat, in_map.
      now apply In_func_overwrites.
    + intros pe. now rewrite !(execute_collision _ _ _ _ _ _ k0 Hk0).
  - intros Hnone. split.
    + rewrite check_for_overwrite_cases.
      now rewrite (no_collision_func_overwrites _ _ _ Hnone).
    + now apply execute_no_collision.
Qed.

Lemma execute_name_shadowing_witness :
  (exists msg,
      execute Mini.exec Mini.repr demo_task "a = 1" []
              (state_of [("Box", VInt 1)])
      = (Raise (WorkflowTaskExecException demo_task msg None None None),
         state_of [("Box", VInt 1)])
      /\ contains (Mini.repr "Box") msg)
  /\ execute Mini.exec Mini.repr demo_task "a = 1" [] (state_of [])
     = (Return tt, state_of [("a", VInt 1)]).
Proof.
  split.
  - destruct (execute_name_shadowing Mini.exec Mini.repr demo_task "a = 1" []
                (state_of [("Box", VInt 1)])) as [H _].
    destruct H as (msg & H1 & H2 & _).
    + exists "Box". split; [reflexivity | left; reflexivity].
    + exists msg. split; [exact H1 | apply H2].
      split; [reflexivity | left; reflexivity].
  - destruct (execute_name_shadowing Mini.exec Mini.repr demo_task "a = 1" []
                (state_of [])) as [_ H].
    destruct H as [_ H].
    + intros k [Hk _]. discriminate Hk.
    + rewrite H. reflexivity.
Defined.



(** C9. A call that the guard refuses leaves the caller's [data] as it
    was: the state after the call is the state before it, so no entry has
    been turned into a Box, and the call ends in the guard's error. *)
Theorem execute_shadowing_leaves_data
        (py_exec : string -> dict -> dict -> exec_result)
        (py_repr : string -> string)
        (task : Task) (script : string) (ext : dict) (s : state) (k : string) :
  collides (self_globals s) ext (data_obj s) k ->
  data_obj (snd (execute py_exec py_repr task script ext s)) = data_obj s
  /\ snd (execute py_exec py_repr task script ext s) = s
  /\ fst (execute py_exec py_repr task script ext s)
     = check_for_overwrite py_repr task (self_globals s) ext (data_obj s)
  /\ exists msg,
       fst (execute py_exec py_repr task script ext s)
       = Raise (WorkflowTaskExecException task msg None None None).
Proof.
  intros Hk. rewrite (execute_collision _ _ _ _ _ _ k Hk). simpl.
  repeat split; try reflexivity.
  - rewrite check_for_overwrite_cases. apply In_func_overwrites in Hk.
    destruct (func_overwrites _ _ _); [destruct Hk | reflexivity].
  - eexists. reflexivity.
Qed.

Lemma execute_shadowing_leaves_data_witness :
  data_obj (snd (execute Mini.exec Mini.repr demo_task "a = 1" []
                   (state_of [("Box", VDict [("x", VInt 1)]);
                              ("d", VDict [("y", VInt 2)])])))
  = [("Box", VDict [("x", VInt 1)]); ("d", VDict [("y", VInt 2)])].
Proof.
  apply (execute_shadowing_leaves_data Mini.exec Mini.repr demo_task "a = 1" []
           (state_of [("Box", VDict [("x", VInt 1)]);
                      ("d", VDict [("y", VInt 2)])]) "Box").
  split; [reflexivity | left; reflexivity].
Defined.

(** ** The engine bindings *)

Lemma _evaluate_unfold py_eval src context ext s :
  _evaluate py_eval src context ext s
  = (match _evaluate_lcls context with
     | Raise e => Raise e
     | Return lcls =>
         value_of (py_eval src (eval_globals s lcls ext) lcls)
     end, s).
Proof.
  unfold _evaluate, call, run_eval, copy_copy, update, new_dict, read, write,
    bind, lift, eval_globals.
  cbn. destruct (_evaluate_lcls context) as [lcls|e]; [|now destruct s].
  cbn. destruct s. reflexivity.
Qed.

Lemma evaluate_unfold py_eval py_str task e s :
  evaluate py_eval py_str task e s
  = (match (match e with
            | Operator _ m => m task
            | Text src =>
                match _evaluate_lcls (VDict (task_data task)) with
                | Raise e => Raise e
                | Return lcls =>
                    value_of (py_eval src (eval_globals s lcls []) lcls)
                end
            end) with
     | Return v => Return v
     | Raise ex => Raise (evaluate_except py_str task e ex)
     end, s).
Proof.
  unfold evaluate. destruct e as [str m | src].
  - unfold call, lift. cbn. now destruct (m task).
  - rewrite _evaluate_unfold.
    destruct (_evaluate_lcls (VDict (task_data task))) as [lcls|ex];
      [|reflexivity].
    now destruct (value_of (py_eval src _ lcls)).
Qed.

Lemma evaluate_self_globals py_eval py_str task e s :
  self_globals (snd (evaluate py_eval py_str task e s)) = self_globals s.
Proof. now rewrite evaluate_unfold. Qed.

Lemma execute_self_globals py_exec py_repr task script ext s :
  self_globals (snd (execute py_exec py_repr task script ext s))
  = self_globals s.
Proof.
  rewrite execute_unfold.
  destruct (check_for_overwrite _ _ _ _ _); [|reflexivity].
  unfold execute_after_guard.
  now destruct (convertToBox (data_obj s)) as [[e|] data].
Qed.

(** The outcome of [evaluate] depends on the state through [self.globals]
    only. *)
Lemma evaluate_depends_on_globals py_eval py_str task e s s' :
  self_globals s = self_globals s' ->
  fst (evaluate py_eval py_str task e s)
  = fst (evaluate py_eval py_str task e s').
Proof.
  intros E. rewrite !evaluate_unfold. unfold eval_globals. now rewrite E.
Qed.

(** C8. Neither [evaluate] nor [execute] changes [self.globals], whether the
    call returns or raises, and whatever [eval] and [exec] write to the
    globals mapping they are given: the mapping the methods update and pass
    on is a copy, an object of the call.  A call made afterwards therefore
    starts from the same engine bindings: an [evaluate] after an [execute]
    gives what it gives on the untouched engine, whatever data and
    extensions the [execute] was given.  The copy does get written: after
    the script [a = 1] the mapping handed to [exec] holds the key
    [__builtins__] and the key [n] of the data, and [self.globals] holds
    neither. *)
Theorem engine_bindings_preserved
        (py_eval : string -> dict -> dict -> eval_result)
        (py_exec : string -> dict -> dict -> exec_result)
        (py_str : exn -> string) (py_repr : string -> string)
        (task task' : Task) (e : expression) (script : string)
        (ext : dict) (s : state) :
  self_globals (snd (evaluate py_eval py_str task e s)) = self_globals s
  /\ self_globals (snd (execute py_exec py_repr task script ext s))
     = self_globals s
  /\ fst (evaluate py_eval py_str task' e
            (snd (execute py_exec py_repr task script ext s)))
     = fst (evaluate py_eval py_str task' e s)
  /\ self_globals
       (snd (execute py_exec py_repr task' script ext
               (snd (execute py_exec py_repr task script ext s))))
     = self_globals s
  /\ exists globals locals,
       (forall py_exec',
           execute py_exec' py_repr task "a = 1" [] (state_of [("n", VInt 1)])
           = (match raised (py_exec' "a = 1" globals locals) with
              | None => Return tt
              | Some (err, tb) => handle_error task "a = 1" err tb
              end,
              {| self_globals := PythonScriptEngine_init [];
                 data_obj := locals_after (py_exec' "a = 1" globals locals)
              |}))
       /\ map fst (globals_after (Mini.exec "a = 1" globals locals))
          = (default_names ++ ["n"; "__builtins__"])%list
       /\ map fst (self_globals
                     (snd (execute Mini.exec py_repr task "a = 1" []
                                   (state_of [("n", VInt 1)]))))
          = default_names.
Proof.
  split; [apply evaluate_self_globals|].
  split; [apply execute_self_globals|].
  split; [|split].
  - apply evaluate_depends_on_globals, execute_self_globals.
  - now rewrite !execute_self_globals.
  - exists (exec_globals (state_of [("n", VInt 1)]) []),
           (exec_locals (state_of [("n", VInt 1)])).
    split; [|split].
    + intros py_exec'. rewrite execute_unfold. reflexivity.
    + reflexivity.
    + now rewrite execute_self_globals.
Qed.

(** ** Expression evaluation *)

Lemma dict_keys_set_NoDup {A} k (v : A) (d : list (string * A)) :
  NoDup (dict_keys d) -> NoDup (dict_keys (dict_set k v d)).
Proof.
  unfold dict_keys. induction d as [|[k' v'] d IH]; intros Hnd; simpl.
  - constructor; [intros [] | constructor].
  - inversion Hnd as [|? ? Hnotin Hnd']; subst.
    destruct (String.eqb k k') eqn:E; simpl.
    + apply String.eqb_eq in E. subst. now constructor.
    + constructor; [|now apply IH].
      intros Hin. apply Hnotin.
      change (In k' (dict_keys (dict_set k v d))) in Hin.
      apply dict_mem_In in Hin. unfold dict_mem in Hin.
      rewrite dict_get_set in Hin.
      destruct (String.eqb k' k) eqn:E'.
      * apply String.eqb_eq in E'. subst. now rewrite String.eqb_refl in E.
      * apply (proj1 (dict_mem_In k' d)). exact Hin.
Qed.

Lemma dict_keys_update_NoDup {A} (d e : list (string * A)) :
  NoDup (dict_keys d) -> NoDup (dict_keys (dict_update d e)).
Proof.
  unfold dict_update. revert d.
  induction e as [|[k v] e IH]; intros d Hnd; simpl; [exact Hnd|].
  apply IH. now apply dict_keys_set_NoDup.
Qed.

Lemma dict_mem_rev {A} k (d : list (string * A)) :
  dict_mem k (rev d) = dict_mem k d.
Proof.
  destruct (dict_mem k d) eqn:E.
  - apply dict_mem_In. apply dict_mem_In in E. unfold dict_keys in *.
    rewrite map_rev. now apply in_rev in E.
  - destruct (dict_mem k (rev d)) eqn:E'; [|reflexivity].
    apply dict_mem_In in E'. unfold dict_keys in E'. rewrite map_rev in E'.
    apply in_rev in E'. apply dict_mem_In in E'. congruence.
Qed.

Lemma dict_mem_update_nil {A} k (d : list (string * A)) :
  dict_mem k (dict_update [] d) = dict_mem k d.
Proof.
  rewrite <- (dict_mem_rev k d). unfold dict_mem.
  rewrite dict_get_update. simpl. now destruct (dict_get k (rev d)).
Qed.



Lemma dict_mem_update {A} k (d e : list (string * A)) :
  dict_mem k (dict_update d e) = (dict_mem k d || dict_mem k e)%bool.
Proof.
  rewrite <- (dict_mem_rev k e). unfold dict_mem. rewrite dict_get_update.
  destruct (dict_get k (rev e)); [now rewrite orb_true_r|].
  now rewrite orb_false_r.
Qed.

Lemma dict_mem_same_keys {A B} k (a : list (string * A))
      (b : list (string * B)) :
  map fst a = map fst b -> dict_mem k a = dict_mem k b.
Proof.
  intros Hab. destruct (dict_mem k b) eqn:E.
  - apply dict_mem_In. apply dict_mem_In in E. unfold dict_keys in *.
    now rewrite Hab.
  - destruct (dict_mem k a) eqn:E'; [|reflexivity].
    apply dict_mem_In in E'. unfold dict_keys in E'. rewrite Hab in E'.
    apply dict_mem_In in E'. congruence.
Qed.

Lemma wrap_entries_keys f : forall l l',
  wrap_entries f l = Return l' -> map fst l' = map fst l.
Proof.
  induction l as [|kv l IH]; intros l' H; simpl in H.
  - now injection H as <-.
  - destruct (f (snd kv)); [|discriminate].
    destruct (wrap_entries f l) as [r|]; [|discriminate].
    injection H as <-. simpl. now rewrite (IH r).
Qed.

Lemma wrap_entries_get f k : forall l l',
  wrap_entries f l = Return l' ->
  match dict_get k l with
  | Some v => exists w, f v = Return w /\ dict_get k l' = Some w
  | None => dict_get k l' = None
  end.
Proof.
  induction l as [|[k0 v0] l IH]; intros l' H; simpl in H.
  - now injection H as <-.
  - destruct (f v0) as [w0|] eqn:Ef; [|discriminate].
    destruct (wrap_entries f l) as [r|]; [|discriminate].
    injection H as <-. simpl. destruct (String.eqb k k0).
    + now exists w0.
    + now apply IH.
Qed.



Lemma wrapped_get_Some f (l w : dict) k v :
  wrap_entries f l = Return w -> dict_get k l = Some v ->
  exists x, f v = Return x /\ dict_get k w = Some x.
Proof.
  intros Hw Hk. pose proof (wrap_entries_get f k l w Hw) as H.
  now rewrite Hk in H.
Qed.

Lemma _evaluate_lcls_keys_NoDup context lcls :
  _evaluate_lcls context = Return lcls -> NoDup (dict_keys lcls).
Proof.
  unfold _evaluate_lcls. intros H. apply wrap_entries_keys in H.
  unfold dict_keys. rewrite H.
  destruct context; try constructor;
    apply (dict_keys_update_NoDup (A := value) []); constructor.
Qed.

Lemma _evaluate_lcls_mem context lcls k :
  _evaluate_lcls context = Return lcls ->
  dict_mem k lcls
  = match context with
    | VDict d => dict_mem k d
    | VBox d _ => dict_mem k d
    | _ => false
    end.
Proof.
  unfold _evaluate_lcls. intros H. apply wrap_entries_keys in H.
  assert (Hm : forall a b : dict, map fst a = map fst b ->
                                  dict_mem k a = dict_mem k b).
  { intros a b Hab. destruct (dict_mem k b) eqn:E.
    - apply dict_mem_In. apply dict_mem_In in E. unfold dict_keys in *.
      now rewrite Hab.
    - destruct (dict_mem k a) eqn:E'; [|reflexivity].
      apply dict_mem_In in E'. unfold dict_keys in E'. rewrite Hab in E'.
      apply dict_mem_In in E'. congruence. }
  rewrite (Hm _ _ H).
  destruct context; try reflexivity; apply dict_mem_update_nil.
Qed.

Lemma evaluate_Text py_eval py_str task src s :
  evaluate py_eval py_str task (Text src) s
  = (match _evaluate_lcls (VDict (task_data task)) with
     | Raise e => Raise (evaluate_except py_str task (Text src) e)
     | Return lcls =>
         match value_of (py_eval src (dict_update (self_globals s) lcls)
                                     lcls) with
         | Return v => Return v
         | Raise e => Raise (evaluate_except py_str task (Text src) e)
         end
     end, s).
Proof.
  rewrite evaluate_unfold. unfold eval_globals.
  now destruct (_evaluate_lcls (VDict (task_data task))).
Qed.

Lemma evaluate_except_not_guard py_str task e ex msg :
  evaluate_except py_str task e ex
  <> WorkflowTaskExecException task (overwrite_prefix ++ msg) None None None.
Proof.
  unfold evaluate_except. destruct (is_Exception ex) eqn:Hexc.
  - discriminate.
  - intros ->. discriminate.
Qed.

(** C7. [evaluate] never runs the guard.  Its result is what [eval]
    returns on the locals built from [task.data] and the globals made of
    the engine bindings overridden by these locals, and whatever it raises
    is the report of a failure of the evaluation, never the guard's error.
    When a key of [task.data] is also an engine binding, so that the guard
    would refuse the same data, the locals bind the key, to the task-data
    value ([Box(v)] of it when it is a plain dict [v]), and the globals
    hold the same value for it in place of the engine's. *)
Theorem evaluate_has_no_overwrite_guard
        (py_eval : string -> dict -> dict -> eval_result)
        (py_str : exn -> string) (py_repr : string -> string)
        (task : Task) (src : string) (s : state) :
  (forall lcls v,
      _evaluate_lcls (VDict (task_data task)) = Return lcls ->
      value_of (py_eval src (dict_update (self_globals s) lcls) lcls)
      = Return v ->
      evaluate py_eval py_str task (Text src) s = (Return v, s))
  /\ (forall e,
         fst (evaluate py_eval py_str task (Text src) s) = Raise e ->
         (exists e0, e = evaluate_except py_str task (Text src) e0)
         /\ forall msg,
             e <> WorkflowTaskExecException task (overwrite_prefix ++ msg)
                    None None None)
  /\ (forall k lcls,
         collides (self_globals s) [] (task_data task) k ->
         _evaluate_lcls (VDict (task_data task)) = Return lcls ->
         (exists msg,
             check_for_overwrite py_repr task (self_globals s) []
                                 (task_data task)
             = Raise (WorkflowTaskExecException task (overwrite_prefix ++ msg)
                        None None None))
         /\ dict_mem k lcls = true
         /\ dict_get k (dict_update (self_globals s) lcls) = dict_get k lcls
         /\ (distinct (map fst (task_data task)) = true ->
             forall v, dict_get k (task_data task) = Some v ->
               exists w,
                 dict_get k lcls = Some w
                 /\ dict_get k (dict_update (self_globals s) lcls) = Some w
                 /\ (forall d, v = VDict d -> Box_init d = Return w)
                 /\ ((forall d, v <> VDict d) -> w = v))).
Proof.
  split; [|split].
  - intros lcls v Hl Hv. now rewrite evaluate_Text, Hl, Hv.
  - intros e He. rewrite evaluate_Text in He. simpl in He.
    assert (Hex : exists e0, e = evaluate_except py_str task (Text src) e0).
    { destruct (_evaluate_lcls (VDict (task_data task))) as [lcls|e0].
      - destruct (value_of (py_eval src _ lcls)) as [v|e0]; [discriminate|].
        injection He as <-. now exists e0.
      - injection He as <-. now exists e0. }
    split; [exact Hex|]. destruct Hex as (e0 & ->).
    intros msg. apply evaluate_except_not_guard.
  - intros k lcls Hk Hl.
    assert (Hglob : dict_get k (dict_update (self_globals s) lcls)
                    = dict_get k lcls).
    { rewrite dict_get_update.
      rewrite (dict_get_rev_unique k lcls (_evaluate_lcls_keys_NoDup _ _ Hl)).
      assert (Hm : dict_mem k lcls = true)
        by (rewrite (_evaluate_lcls_mem _ _ k Hl); apply Hk).
      unfold dict_mem in Hm. now destruct (dict_get k lcls). }
    split; [|split; [|split]].
    + exists (set_repr py_repr
                (func_overwrites (self_globals s) [] (task_data task))).
      rewrite check_for_overwrite_cases.
      apply In_func_overwrites in Hk.
      destruct (func_overwrites _ _ _); [destruct Hk | reflexivity].
    + rewrite (_evaluate_lcls_mem _ _ k Hl). apply Hk.
    + exact Hglob.
    + intros Hd v Hv. unfold _evaluate_lcls in Hl.
      rewrite dict_update_nil_unique in Hl by (now apply distinct_NoDup).
      destruct (wrapped_get_Some _ _ _ _ _ Hl Hv) as (w & Hw & Hg).
      exists w. split; [exact Hg|]. split; [now rewrite Hglob|]. split.
      * intros d ->. exact Hw.
      * intros Hnd. destruct v; try (now injection Hw as <-).
        now elim (Hnd d).
Qed.

Lemma evaluate_has_no_overwrite_guard_witness :
  evaluate Mini.eval Mini.str
           {| task_name := "task"; task_data := [("Box", VInt 7)] |}
           (Text "Box") (state_of [])
  = (Return (VInt 7), state_of [])
  /\ dict_get "Box" (dict_update (self_globals (state_of []))
                                 [("Box", VInt 7)]) = Some (VInt 7).
Proof.
  pose proof (evaluate_has_no_overwrite_guard Mini.eval Mini.str Mini.repr
                {| task_name := "task"; task_data := [("Box", VInt 7)] |}
                "Box" (state_of [])) as (Hret & _ & Hcol).
  split.
  - apply (Hret [("Box", VInt 7)]); reflexivity.
  - destruct (Hcol "Box" [("Box", VInt 7)]) as (_ & _ & _ & Hval).
    + split; [reflexivity | left; reflexivity].
    + reflexivity.
    + destruct (Hval eq_refl (VInt 7) eq_refl) as (w & Hw & Hg & _ & Hsame).
      rewrite Hg. f_equal. apply Hsame. discriminate.
Defined.

(** ** Errors already classified *)

(** [execute] re-raises a WorkflowTaskExecException as it is. *)
Lemma handle_error_classified task script err tb :
  is_WorkflowTaskExecException err = true ->
  handle_error task script err tb = Raise err.
Proof. destruct err; [reflexivity | discriminate]. Qed.

Lemma execute_raised py_exec py_repr task script ext s err tb :
  (forall k, ~ collides (self_globals s) ext (data_obj s) k) ->
  fst (convertToBox (data_obj s)) = None ->
  raised (py_exec script (exec_globals s ext) (exec_locals s))
  = Some (err, tb) ->
  fst (execute py_exec py_repr task script ext s)
  = handle_error task script err tb.
Proof.
  intros Hnone Hc Hr. rewrite (execute_no_collision _ _ _ _ _ _ Hnone).
  unfold execute_after_guard, exec_globals, exec_locals in *.
  destruct (convertToBox (data_obj s)) as [[e|] data]; [discriminate|].
  simpl in *. now rewrite Hr.
Qed.

Lemma execute_passes_classified_error py_exec py_repr task script ext s :
  (forall k, ~ collides (self_globals s) ext (data_obj s) k) ->
  fst (convertToBox (data_obj s)) = None ->
  forall err tb,
    raised (py_exec script (exec_globals s ext) (exec_locals s))
    = Some (err, tb) ->
    is_WorkflowTaskExecException err = true ->
    fst (execute py_exec py_repr task script ext s) = Raise err.
Proof.
  intros Hnone Hc err tb Hr Hw.
  rewrite (execute_raised _ _ _ _ _ _ _ _ Hnone Hc Hr).
  now apply handle_error_classified.
Qed.

(** [evaluate] wraps whatever [except Exception] catches, a
    WorkflowTaskExecException included. *)
Lemma evaluate_wraps_classified_error py_eval py_str task src s lcls err :
  _evaluate_lcls (VDict (task_data task)) = Return lcls ->
  value_of (py_eval src (dict_update (self_globals s) lcls) lcls)
  = Raise err ->
  is_WorkflowTaskExecException err = true ->
  fst (evaluate py_eval py_str task (Text src) s)
  = Raise (WorkflowTaskExecException task
             ("Error evaluating expression '" ++ src ++ "', " ++ py_str err)
             None None None).
Proof.
  intros Hl He Hw. rewrite evaluate_Text, Hl, He. simpl.
  destruct err; [reflexivity | discriminate].
Qed.

(** C5. On the [execute] path a failure that is already a
    WorkflowTaskExecException reaches the caller as it is; on the
    [evaluate] path it does not: for an expression (textual, or an
    Operator) whose evaluation raises [inner_error], [evaluate] raises a
    new error built from the text of the inner one, without its line
    number and source line. *)
Theorem evaluate_rewraps_classified_error :
  fst (execute (exec_raising inner_error []) Mini.repr demo_task "x = f()" []
               (state_of []))
  = Raise inner_error
  /\ fst (evaluate (eval_raising inner_error) Mini.str demo_task (Text "f()")
                  (state_of []))
     = Raise (WorkflowTaskExecException demo_task
                "Error evaluating expression 'f()', inner detail"
                None None None)
  /\ fst (evaluate Mini.eval Mini.str demo_task
                  (Operator "op" (fun _ => Raise inner_error)) (state_of []))
     = Raise (WorkflowTaskExecException demo_task
                "Error evaluating expression 'op', inner detail"
                None None None)
  /\ fst (evaluate (eval_raising inner_error) Mini.str demo_task (Text "f()")
                  (state_of []))
     <> Raise inner_error.
Proof.
  split; [reflexivity|]. split; [reflexivity|]. split; [reflexivity|].
  discriminate.
Qed.

(** ** Locating the failing line *)

Lemma last_script_frame_cons f tb :
  last_script_frame (f :: tb)
  = match last_script_frame tb with
    | Some g => Some g
    | None => if is_script_frame f then Some f else None
    end.
Proof.
  unfold last_script_frame. simpl.
  destruct (is_script_frame f); simpl.
  - destruct (rev (filter is_script_frame tb)); reflexivity.
  - destruct (rev (filter is_script_frame tb)); reflexivity.
Qed.

(** The loop keeps the last script frame it meets. *)
Lemma locate_last script tb : forall ln el r,
  locate script tb ln el = Return r ->
  r = match last_script_frame tb with
      | None => (ln, el)
      | Some f => (Z.pos (lineno f),
                   nth (Pos.to_nat (lineno f) - 1) (splitlines script)
                       EmptyString)
      end.
Proof.
  induction tb as [|f tb IH]; intros ln el r H; simpl in H.
  - injection H as <-. reflexivity.
  - rewrite last_script_frame_cons. fold (is_script_frame f) in H.
    destruct (is_script_frame f) eqn:Ef.
    + unfold list_index in H.
      destruct (nth_error (splitlines script) (Pos.to_nat (lineno f) - 1))
        as [line|] eqn:En; [|discriminate].
      apply IH in H. rewrite H.
      destruct (last_script_frame tb); [reflexivity|].
      f_equal. symmetry. now apply nth_error_nth.
    + apply IH in H. rewrite H. now destruct (last_script_frame tb).
Qed.

(** The loop ends normally when every script frame points inside the
    script. *)
Lemma locate_total script tb : forall ln el,
  (forall f, In f tb -> is_script_frame f = true ->
             (Pos.to_nat (lineno f) <= List.length (splitlines script))%nat) ->
  exists r, locate script tb ln el = Return r.
Proof.
  induction tb as [|f tb IH]; intros ln el Hin; simpl.
  - eexists. reflexivity.
  - fold (is_script_frame f). destruct (is_script_frame f) eqn:Ef.
    + unfold list_index.
      destruct (nth_error (splitlines script) (Pos.to_nat (lineno f) - 1))
        as [line|] eqn:En.
      * apply IH. intros g Hg. apply Hin. now right.
      * exfalso. apply nth_error_None in En.
        specialize (Hin f (or_introl eq_refl) Ef). lia.
    + apply IH. intros g Hg. apply Hin. now right.
Qed.

Lemma locate_raises_IndexError script tb : forall ln el e,
  locate script tb ln el = Raise e ->
  is_WorkflowTaskExecException e = false.
Proof.
  induction tb as [|f tb IH]; intros ln el e H; simpl in H; [discriminate|].
  destruct (filename f =? "<string>")%string; [|now apply IH in H].
  unfold list_index in H.
  destruct (nth_error (splitlines script) (Pos.to_nat (lineno f) - 1)).
  - now apply IH in H.
  - now injection H as <-.
Qed.

(** When the run of the script raises an error that is not a
    WorkflowTaskExecException, every WorkflowTaskExecException that
    [execute] then raises carries the error, the line number of the last
    frame of the traceback whose file is the script text, and that entry of
    [script.splitlines()]; line 0 and the empty text without such a frame.
    It is raised whenever the error is an Exception whose first argument,
    if any, is a str, and the script frames point inside the split script.
    For the script with lines [a = 1] and [b = a / 0], a traceback ending
    at line 2 gives line number 2 and the text [b = a / 0], and this is
    what the run produces. *)
Lemma execute_error_location
        (py_exec : string -> dict -> dict -> exec_result)
        (py_repr : string -> string)
        (task : Task) (script : string) (ext : dict) (s : state)
        (cls : string) (args : list value) (tb : list FrameSummary) :
  (forall k, ~ collides (self_globals s) ext (data_obj s) k) ->
  fst (convertToBox (data_obj s)) = None ->
  raised (py_exec script (exec_globals s ext) (exec_locals s))
  = Some (PyExc cls args, tb) ->
  (forall e',
      fst (execute py_exec py_repr task script ext s) = Raise e' ->
      is_WorkflowTaskExecException e' = true ->
      exists detail,
        e' = WorkflowTaskExecException task detail (Some (PyExc cls args))
               (Some (fst (located script tb)))
               (Some (snd (located script tb))))
  /\ (is_Exception (PyExc cls args) = true ->
      (forall detail, error_detail cls args = Return detail ->
       (forall f, In f tb -> is_script_frame f = true ->
          (Pos.to_nat (lineno f) <= List.length (splitlines script))%nat) ->
       fst (execute py_exec py_repr task script ext s)
       = Raise (WorkflowTaskExecException task detail (Some (PyExc cls args))
                  (Some (fst (located script tb)))
                  (Some (snd (located script tb))))))
  /\ (last_script_frame tb = None -> located script tb = (0, EmptyString))
  /\ (forall f, last_script_frame tb = Some f -> lineno f = 2%positive ->
                located script_div0 tb = (2, "b = a / 0"))
  /\ fst (execute Mini.exec Mini.repr task script_div0 [] (state_of []))
     = Raise (WorkflowTaskExecException task
                "ZeroDivisionError:division by zero"
                (Some (PyExc "ZeroDivisionError" [VStr "division by zero"]))
                (Some 2) (Some "b = a / 0")).
Proof.
  intros Hnone Hc Hr.
  pose proof (execute_raised py_exec py_repr task script ext s _ _ Hnone Hc Hr)
    as Hex.
  split; [|split; [|split; [|split]]].
  - intros e' He' Hw. rewrite Hex in He'. unfold handle_error in He'.
    destruct (is_Exception (PyExc cls args)).
    + destruct (error_detail cls args) as [detail|e0] eqn:Hd.
      * destruct (locate script tb 0 EmptyString) as [[ln el]|e1] eqn:El.
        -- injection He' as <-. exists detail.
           apply locate_last in El. unfold located. now rewrite <- El.
        -- injection He' as <-.
           now rewrite (locate_raises_IndexError _ _ _ _ _ El) in Hw.
      * injection He' as <-.
        destruct args as [|[] args]; simpl in Hd; try discriminate Hd;
          injection Hd as <-; discriminate Hw.
    + injection He' as <-. discriminate.
  - intros Hexc detail Hd Hin. rewrite Hex. unfold handle_error.
    rewrite Hexc, Hd.
    destruct (locate_total script tb 0 EmptyString Hin) as [[ln el] El].
    rewrite El. apply locate_last in El. unfold located. now rewrite <- El.
  - intros Hn. unfold located. now rewrite Hn.
  - intros f Hf Hl. unfold located. rewrite Hf, Hl. reflexivity.
  - reflexivity.
Qed.

(** C3. For the script with lines [a = 1] and [b = a / 0], [execute]
    raises the Execution error with line number 2 and the text
    [b = a / 0].  It does not do so for every failure.  When the first
    argument of the error is not a str, as for the KeyError of [d[1]], the
    handler itself fails on [":" + err.args[0]] and [execute] raises that
    TypeError, no Execution error at all.  When the script holds a line
    boundary of [str.splitlines] that does not end a line of the source,
    as a form feed, the text reported is not the line the frame points to:
    the failure is at line 3, [b = a / 0], and the text reported is
    empty. *)
Theorem execute_error_report_defects :
  fst (execute Mini.exec Mini.repr demo_task script_div0 [] (state_of []))
  = Raise (WorkflowTaskExecException demo_task
             "ZeroDivisionError:division by zero"
             (Some (PyExc "ZeroDivisionError" [VStr "division by zero"]))
             (Some 2) (Some "b = a / 0"))
  /\ raised (Mini.exec script_keyerror
                       (exec_globals (state_of [("d", VDict [])]) [])
                       (exec_locals (state_of [("d", VDict [])])))
     = Some (PyExc "KeyError" [VInt 1],
             [Mini.engine_frame; {| filename := "<string>"; lineno := 1 |}])
  /\ fst (execute Mini.exec Mini.repr demo_task script_keyerror []
                  (state_of [("d", VDict [])]))
     = Raise (PyExc "TypeError"
                [VStr ("can only concatenate str (not " ++ dq ++ "int" ++ dq
                       ++ ") to str")])
  /\ raised (Mini.exec script_formfeed (exec_globals (state_of []) [])
                       (exec_locals (state_of [])))
     = Some (PyExc "ZeroDivisionError" [VStr "division by zero"],
             [Mini.engine_frame; {| filename := "<string>"; lineno := 3 |}])
  /\ nth_error (physical_lines script_formfeed) 2 = Some "b = a / 0"
  /\ fst (execute Mini.exec Mini.repr demo_task script_formfeed []
                  (state_of []))
     = Raise (WorkflowTaskExecException demo_task
                "ZeroDivisionError:division by zero"
                (Some (PyExc "ZeroDivisionError" [VStr "division by zero"]))
                (Some 3) (Some EmptyString)).
Proof. repeat split; reflexivity. Qed.

(** ** Induction on values *)

Section ValueInduction.
Variable P : value -> Prop.
Hypothesis HNone : P VNone.
Hypothesis HBool : forall b, P (VBool b).
Hypothesis HInt : forall z, P (VInt z).
Hypothesis HStr : forall s, P (VStr s).
Hypothesis HList : forall l, Forall P l -> P (VList l).
Hypothesis HDict : forall d, Forall (fun kv => P (snd kv)) d -> P (VDict d).
Hypothesis HBox : forall items attrs,
    Forall (fun kv => P (snd kv)) items ->
    Forall (fun kv => P (snd kv)) attrs -> P (VBox items attrs).
Hypothesis HObj : forall n, P (VObj n).

Lemma value_nested_ind : forall v, P v.
Proof.
  fix IH 1. intros [ | b | z | s | l | d | items attrs | n].
  - exact HNone.
  - apply HBool.
  - apply HInt.
  - apply HStr.
  - apply HList. induction l as [|x l IHl]; constructor; [apply IH | exact IHl].
  - apply HDict.
    induction d as [|kv d IHd]; constructor; [apply IH | exact IHd].
  - apply HBox.
    + induction items as [|kv d IHd]; constructor; [apply IH | exact IHd].
    + induction attrs as [|kv d IHd]; constructor; [apply IH | exact IHd].
  - apply HObj.
Qed.
End ValueInduction.

(** ** The loops of the constructor and of the conversion *)



Lemma wrap_entries_fixed f : forall l,
  Forall (fun kv => f (snd kv) = Return (snd kv)) l ->
  wrap_entries f l = Return l.
Proof.
  induction 1 as [|[k v] l Hkv _ IH]; simpl; [reflexivity|].
  simpl in Hkv. now rewrite Hkv, IH.
Qed.

Lemma convert_entries_wrap f l :
  convert_entries f l
  = wrap_entries (fun v => if isinstance_dict v then f v else Return v) l.
Proof.
  induction l as [|kv l IH]; simpl; [reflexivity|]. now rewrite IH.
Qed.



(** ** The constructor of Box *)

Lemma Box_fill_stores w : forall d a,
  Box_fill w (d, a) = (dict_update d w, dict_update a w).
Proof.
  unfold Box_fill, dict_update.
  induction w as [|[k v] w IH]; intros d a; simpl; [reflexivity|].
  unfold Box_setitem at 2. simpl. apply IH.
Qed.

Lemma Box_wrap_VDict d :
  Box_wrap (VDict d)
  = match wrap_entries Box_wrap d with
    | Raise e => Raise e
    | Return w => Return (VBox (dict_update d w) (dict_update [] w))
    end.
Proof.
  simpl. destruct (wrap_entries Box_wrap d) as [w|]; [|reflexivity].
  now rewrite Box_fill_stores.
Qed.

Lemma Box_wrap_VBox d attrs :
  Box_wrap (VBox d attrs)
  = match shadowed attrs "items" with
    | Some e => Raise e
    | None => Box_wrap (VDict d)
    end.
Proof. simpl. now destruct (shadowed attrs "items"). Qed.

Lemma Box_wrap_other v :
  isinstance_dict v = false -> Box_wrap v = Return v.
Proof. destruct v; try discriminate; reflexivity. Qed.

Lemma Box_wrap_kind v w :
  Box_wrap v = Return w -> isinstance_dict w = isinstance_dict v.
Proof.
  destruct v; try (now intros [= <-]).
  - rewrite Box_wrap_VDict.
    destruct (wrap_entries Box_wrap d); [now intros [= <-] | discriminate].
  - rewrite Box_wrap_VBox. destruct (shadowed attrs "items"); [discriminate|].
    rewrite Box_wrap_VDict.
    destruct (wrap_entries Box_wrap items); [now intros [= <-] | discriminate].
Qed.

Lemma Box_wrap_mapping_Box v w :
  isinstance_dict v = true -> Box_wrap v = Return w ->
  exists d wrapped,
    (v = VDict d \/ exists a, v = VBox d a)
    /\ wrap_entries Box_wrap d = Return wrapped
    /\ w = VBox (dict_update d wrapped) (dict_update [] wrapped).
Proof.
  destruct v; try discriminate; intros _.
  - rewrite Box_wrap_VDict.
    destruct (wrap_entries Box_wrap d) as [wr|] eqn:E; [|discriminate].
    intros [= <-]. exists d, wr. split; [now left|]. now split.
  - rewrite Box_wrap_VBox. destruct (shadowed attrs "items"); [discriminate|].
    rewrite Box_wrap_VDict.
    destruct (wrap_entries Box_wrap items) as [wr|] eqn:E; [|discriminate].
    intros [= <-]. exists items, wr. split; [right; now exists attrs|].
    now split.
Qed.


(** ** The two views of a Box *)


Lemma dict_get_del {A} k k' (d : list (string * A)) :
  dict_get k' (dict_del k d)
  = if String.eqb k' k then None else dict_get k' d.
Proof.
  unfold dict_del. induction d as [|[k0 v0] d IH]; simpl.
  - now destruct (String.eqb k' k).
  - destruct (String.eqb k k0) eqn:E; simpl.
    + apply String.eqb_eq in E. subst k0. rewrite IH.
      now destruct (String.eqb k' k).
    + rewrite IH. destruct (String.eqb k' k0) eqn:E'; [|reflexivity].
      apply String.eqb_eq in E'. subst k0.
      destruct (String.eqb k' k) eqn:E2; [|reflexivity].
      apply String.eqb_eq in E2. subst. now rewrite String.eqb_refl in E.
Qed.



Lemma Box_getitem_Return b k v :
  Box_getitem b k = Return v <-> dict_get k (fst b) = Some v.
Proof.
  unfold Box_getitem. destruct (dict_get k (fst b)); split; congruence.
Qed.

Lemma Box_setitem_stores b k v k' :
  dict_get k' (fst (Box_setitem b k v))
  = (if String.eqb k' k then Some v else dict_get k' (fst b))
  /\ dict_get k' (snd (Box_setitem b k v))
     = (if String.eqb k' k then Some v else dict_get k' (snd b)).
Proof.
  unfold Box_setitem, dict_update. simpl. now rewrite !dict_get_set.
Qed.









(** ** Mappings on which the conversions return *)



Lemma no_method_keys_shadowed attrs :
  no_method_keys attrs = true ->
  shadowed attrs "items" = None /\ shadowed attrs "keys" = None.
Proof.
  unfold no_method_keys, shadowed, dict_mem.
  rewrite andb_true_iff, !negb_true_iff.
  destruct (dict_get "items" attrs); destruct (dict_get "keys" attrs);
    intros [H1 H2]; try discriminate. now split.
Qed.

Lemma method_free_Box d a :
  method_free (VBox d a) = true
  <-> no_method_keys d = true
      /\ Forall (fun kv => method_free (snd kv) = true) d
      /\ no_method_keys a = true
      /\ Forall (fun kv => method_free (snd kv) = true) a.
Proof.
  simpl. rewrite !andb_true_iff, !forallb_forall, !Forall_forall. tauto.
Qed.





(** ** Conversion of the data *)

(** What the loops in place return is what the loops on values compute. *)
Lemma convert_elements_in_place_outcome f : forall l,
  match convert_elements_in_place f l with
  | (None, l') => convert_elements (fun v => fst (f v)) l = Return l'
  | (Some e, _) => convert_elements (fun v => fst (f v)) l = Raise e
  end.
Proof.
  induction l as [|x l IH]; simpl; [reflexivity|].
  destruct (f x) as [[w|e] x']; simpl; [|reflexivity].
  destruct (convert_elements_in_place f l) as [[e|] r']; now rewrite IH.
Qed.

Lemma convert_entries_in_place_outcome f : forall l,
  match convert_entries_in_place f l with
  | (None, l') => convert_entries (fun v => fst (f v)) l = Return l'
  | (Some e, _) => convert_entries (fun v => fst (f v)) l = Raise e
  end.
Proof.
  induction l as [|[k v] l IH]; simpl; [reflexivity|].
  destruct (isinstance_dict v).
  - destruct (f v) as [[w|e] v']; simpl; [|reflexivity].
    destruct (convert_entries_in_place f l) as [[e|] r']; now rewrite IH.
  - destruct (convert_entries_in_place f l) as [[e|] r']; now rewrite IH.
Qed.

Lemma convert_Box_entries_in_place_outcome f :
  (forall v w, isinstance_dict v = true -> fst (f v) = Return w ->
               isinstance_dict w = true) ->
  forall l attrs,
    match convert_Box_entries_in_place f l attrs with
    | (None, b) =>
        convert_entries (fun v => fst (f v)) l = Return (fst b)
        /\ snd b = dict_update attrs
                     (filter (fun kv => isinstance_dict (snd kv)) (fst b))
    | (Some e, _) => convert_entries (fun v => fst (f v)) l = Raise e
    end.
Proof.
  intros Hf. induction l as [|[k v] l IH]; intros attrs; simpl;
    [now split|].
  destruct (isinstance_dict v) eqn:Ed.
  - destruct (f v) as [[w|e] v'] eqn:Ef; simpl; [|reflexivity].
    specialize (IH (dict_update attrs [(k, w)])).
    destruct (convert_Box_entries_in_place f l _) as [[e|] b].
    + now rewrite IH.
    + destruct IH as [-> ->]. split; [reflexivity|]. simpl.
      assert (Hw : isinstance_dict w = true)
        by (apply (Hf v); [exact Ed | now rewrite Ef]).
      now rewrite Hw.
  - specialize (IH attrs).
    destruct (convert_Box_entries_in_place f l attrs) as [[e|] b].
    + now rewrite IH.
    + destruct IH as [-> ->]. split; [reflexivity|]. simpl. now rewrite Ed.
Qed.

Lemma convertToBoxSub_in_place_mapping v w :
  isinstance_dict v = true -> fst (convertToBoxSub_in_place v) = Return w ->
  isinstance_dict w = true.
Proof.
  destruct v; try discriminate; intros _; simpl.
  - destruct (convert_entries_in_place convertToBoxSub_in_place d)
      as [[e|] d']; simpl; [discriminate|].
    intros H. now rewrite (Box_wrap_kind (VDict d') w H).
  - destruct (shadowed attrs "keys"); [discriminate|].
    destruct (convert_Box_entries_in_place convertToBoxSub_in_place items
                attrs) as [[e|] b]; simpl; [discriminate|].
    intros H. now rewrite (Box_wrap_kind (VBox (fst b) (snd b)) w H).
Qed.

Lemma convertToBoxSub_VList l :
  convertToBoxSub (VList l)
  = match convert_elements convertToBoxSub l with
    | Raise e => Raise e
    | Return l' => Return (VList l')
    end.
Proof.
  unfold convertToBoxSub at 1. simpl.
  pose proof (convert_elements_in_place_outcome convertToBoxSub_in_place l)
    as H.
  destruct (convert_elements_in_place convertToBoxSub_in_place l)
    as [[e|] l']; simpl; fold convertToBoxSub in H; now rewrite H.
Qed.

Lemma convertToBoxSub_VDict d :
  convertToBoxSub (VDict d)
  = match convert_entries convertToBoxSub d with
    | Raise e => Raise e
    | Return d' => Box_init d'
    end.
Proof.
  unfold convertToBoxSub at 1. simpl.
  pose proof (convert_entries_in_place_outcome convertToBoxSub_in_place d)
    as H.
  destruct (convert_entries_in_place convertToBoxSub_in_place d)
    as [[e|] d']; simpl; fold convertToBoxSub in H; now rewrite H.
Qed.

Lemma convertToBoxSub_VBox d attrs :
  convertToBoxSub (VBox d attrs)
  = match shadowed attrs "keys" with
    | Some e => Raise e
    | None =>
        match convert_entries convertToBoxSub d with
        | Raise e => Raise e
        | Return d' =>
            Box_wrap (VBox d' (dict_update attrs
                                 (filter (fun kv => isinstance_dict (snd kv))
                                         d')))
        end
    end.
Proof.
  unfold convertToBoxSub at 1. simpl.
  destruct (shadowed attrs "keys"); [reflexivity|].
  pose proof (convert_Box_entries_in_place_outcome convertToBoxSub_in_place
                convertToBoxSub_in_place_mapping d attrs) as H.
  destruct (convert_Box_entries_in_place convertToBoxSub_in_place d attrs)
    as [[e|] b]; simpl; fold convertToBoxSub in H.
  - now rewrite H.
  - destruct H as [-> <-]. reflexivity.
Qed.

Lemma convertToBoxSub_other v :
  match v with VList _ | VDict _ | VBox _ _ => False | _ => True end ->
  convertToBoxSub_in_place v = (Return v, v).
Proof. destruct v; intros H; try destruct H; reflexivity. Qed.


Lemma convertToBox_cons kv r :
  convertToBox (kv :: r)
  = match convertToBoxSub (snd kv) with
    | Raise e =>
        (Some e, (fst kv, snd (convertToBoxSub_in_place (snd kv))) :: r)
    | Return w =>
        let (e, r') := convertToBox r in (e, (fst kv, w) :: r')
    end.
Proof.
  unfold convertToBoxSub. simpl.
  now destruct (convertToBoxSub_in_place (snd kv)) as [[w|e] v'].
Qed.

Lemma convertToBoxSub_mapping w w' :
  isinstance_dict w = true -> convertToBoxSub w = Return w' ->
  isinstance_Box w' = true.
Proof.
  intros Hd Hc.
  assert (Hbox : forall v, isinstance_dict v = true ->
                           Box_wrap v = Return w' -> isinstance_Box w' = true).
  { intros v Hv Hw. destruct (Box_wrap_mapping_Box v w' Hv Hw)
      as (d & wr & _ & _ & ->). reflexivity. }
  destruct w; try discriminate.
  - rewrite convertToBoxSub_VDict in Hc.
    destruct (convert_entries convertToBoxSub d); [|discriminate].
    now apply (Hbox (VDict a)).
  - rewrite convertToBoxSub_VBox in Hc.
    destruct (shadowed attrs "keys"); [discriminate|].
    destruct (convert_entries convertToBoxSub items) as [d'|]; [|discriminate].
    now apply (Hbox (VBox d' (dict_update attrs
                        (filter (fun kv => isinstance_dict (snd kv)) d')))).
Qed.




Lemma convertToBox_keys : forall data,
  map fst (snd (convertToBox data)) = map fst data.
Proof.
  induction data as [|[k v] data IH]; [reflexivity|].
  rewrite convertToBox_cons. simpl.
  destruct (convertToBoxSub v); [|reflexivity].
  destruct (convertToBox data) as [e r]. simpl in *. now rewrite IH.
Qed.




(** ** AttributeMaps *)

Lemma dict_set_middle {A} k (v v0 : A) (pre d : list (string * A)) :
  ~ In k (dict_keys pre) ->
  dict_set k v (pre ++ (k, v0) :: d)%list = (pre ++ (k, v) :: d)%list.
Proof.
  unfold dict_keys. induction pre as [|[k1 v1] pre IH]; simpl; intros Hk.
  - now rewrite String.eqb_refl.
  - destruct (String.eqb k k1) eqn:E.
    + apply String.eqb_eq in E. subst. exfalso. apply Hk. now left.
    + rewrite IH; [reflexivity|]. intros H. apply Hk. now right.
Qed.

(** Writing back, in order, entries with the keys of the dict itself. *)
Lemma dict_update_same_keys {A} (w : list (string * A)) :
  forall d pre,
    map fst d = map fst w -> NoDup (map fst pre ++ map fst w) ->
    dict_update (pre ++ d)%list w = (pre ++ w)%list.
Proof.
  unfold dict_update.
  induction w as [|[k v] w IH]; intros d pre Hk Hnd.
  - destruct d; [reflexivity | discriminate].
  - destruct d as [|[k0 v0] d]; [discriminate|]. simpl in Hk.
    injection Hk as -> Hk. simpl.
    rewrite dict_set_middle.
    2:{ apply NoDup_remove_2 in Hnd. intros H. apply Hnd.
        apply in_or_app. now left. }
    change (pre ++ (k, v) :: d)%list with (pre ++ [(k, v)] ++ d)%list.
    rewrite app_assoc, (IH d (pre ++ [(k, v)])%list Hk).
    + now rewrite <- app_assoc.
    + rewrite map_app. simpl. rewrite <- app_assoc. exact Hnd.
Qed.

Lemma AttributeMap_Box items attrs :
  AttributeMap (VBox items attrs)
  <-> attrs = items /\ distinct (map fst items) = true
      /\ entries_wrapped items.
Proof.
  simpl. unfold entries_wrapped.
  enough (H : forall l : dict,
             (fix entries (l : dict) : Prop :=
                match l with
                | [] => True
                | kv :: r =>
                    match snd kv with
                    | VDict _ => False
                    | VBox _ _ => AttributeMap (snd kv)
                    | _ => True
                    end /\ entries r
                end) l
             <-> Forall (fun kv => match snd kv with
                                   | VDict _ => False
                                   | VBox _ _ => AttributeMap (snd kv)
                                   | _ => True
                                   end) l).
  { rewrite (H items). tauto. }
  induction l as [|kv l IH].
  - split; [constructor | trivial].
  - rewrite IH. split.
    + intros [H1 H2]. now constructor.
    + intros H. inversion H; subst. now split.
Qed.

Lemma dict_set_present {A} k (v : A) (d : list (string * A)) :
  dict_get k d = Some v -> dict_set k v d = d.
Proof.
  induction d as [|[k0 v0] d IH]; simpl; [discriminate|].
  destruct (String.eqb k k0) eqn:E.
  - apply String.eqb_eq in E. intros [= ->]. now subst.
  - intros H. now rewrite IH.
Qed.

Lemma dict_get_of_In {A} k (v : A) (d : list (string * A)) :
  NoDup (dict_keys d) -> In (k, v) d -> dict_get k d = Some v.
Proof.
  unfold dict_keys. induction d as [|[k0 v0] d IH]; intros Hnd Hin;
    [destruct Hin|].
  inversion Hnd as [|? ? Hnotin Hnd']; subst. simpl.
  destruct Hin as [[= -> ->]|Hin].
  - now rewrite String.eqb_refl.
  - destruct (String.eqb k k0) eqn:E; [|now apply IH].
    apply String.eqb_eq in E. subst. exfalso. apply Hnotin.
    change k0 with (fst (k0, v)). now apply in_map.
Qed.

(** Writing entries of the dict back into it changes nothing. *)
Lemma dict_update_own_entries {A} (d e : list (string * A)) :
  NoDup (dict_keys d) -> (forall kv, In kv e -> In kv d) ->
  dict_update d e = d.
Proof.
  intros Hnd. unfold dict_update.
  induction e as [|[k v] e IH]; intros Hsub; simpl; [reflexivity|].
  rewrite dict_set_present.
  - apply IH. intros kv Hin. apply Hsub. now right.
  - apply dict_get_of_In; [exact Hnd|]. apply Hsub. now left.
Qed.

(** Away from the two method names, an AttributeMap is a fixed point of
    [Box(...)] and of [convertToBoxSub]. *)
Lemma Box_wrap_AttributeMap :
  forall v, AttributeMap v -> method_free v = true -> Box_wrap v = Return v.
Proof.
  induction v as [ | | | | | | items attrs IHi _ | ] using value_nested_ind;
    intros Hv Hm; try (now destruct Hv).
  apply AttributeMap_Box in Hv. destruct Hv as (-> & Hd & Hent).
  apply method_free_Box in Hm. destruct Hm as (Hk & Hmv & _ & _).
  rewrite Box_wrap_VBox, (proj1 (no_method_keys_shadowed items Hk)).
  rewrite Box_wrap_VDict, wrap_entries_fixed.
  - apply distinct_NoDup in Hd.
    pose proof (dict_update_same_keys items items [] eq_refl Hd) as Hsame.
    simpl in Hsame. rewrite Hsame.
    now rewrite dict_update_nil_unique.
  - unfold entries_wrapped in Hent. rewrite Forall_forall in *.
    intros kv Hin. specialize (IHi kv Hin). specialize (Hent kv Hin).
    specialize (Hmv kv Hin).
    destruct (snd kv); try reflexivity; [destruct Hent | now apply IHi].
Qed.

Lemma convertToBoxSub_AttributeMap :
  forall v, AttributeMap v -> method_free v = true ->
            convertToBoxSub v = Return v.
Proof.
  induction v as [ | | | | | | items attrs IHi _ | ] using value_nested_ind;
    intros Hv Hm; try (now destruct Hv).
  pose proof (Box_wrap_AttributeMap _ Hv Hm) as Hwrap.
  apply AttributeMap_Box in Hv. destruct Hv as (-> & Hd & Hent).
  apply method_free_Box in Hm. destruct Hm as (Hk & Hmv & _ & _).
  rewrite convertToBoxSub_VBox, (proj2 (no_method_keys_shadowed items Hk)).
  rewrite convert_entries_wrap, wrap_entries_fixed.
  - rewrite dict_update_own_entries; [exact Hwrap | |].
    + now apply distinct_NoDup.
    + intros kv Hin. now apply filter_In in Hin.
  - unfold entries_wrapped in Hent. rewrite Forall_forall in *.
    intros kv Hin. specialize (IHi kv Hin). specialize (Hent kv Hin).
    specialize (Hmv kv Hin).
    destruct (snd kv); try reflexivity; [destruct Hent | now apply IHi].
Qed.

Lemma Box_init_distinct (d : dict) (b : value) :
  distinct (map fst d) = true -> Box_init d = Return b ->
  exists w, wrap_entries Box_wrap d = Return w /\ b = VBox w w.
Proof.
  intros Hd Hb. unfold Box_init in Hb. rewrite Box_wrap_VDict in Hb.
  destruct (wrap_entries Box_wrap d) as [w|] eqn:Hw; [|discriminate].
  injection Hb as <-. exists w. split; [reflexivity|].
  pose proof (wrap_entries_keys _ _ _ Hw) as Hk.
  apply distinct_NoDup in Hd.
  assert (Hnd : NoDup (map fst w)) by now rewrite Hk.
  pose proof (dict_update_same_keys w d [] (eq_sym Hk) Hnd) as Hsame.
  simpl in Hsame. rewrite Hsame.
  now rewrite (dict_update_nil_unique w Hnd).
Qed.





(** The entries of the Box a mapping is converted to. *)
Lemma convertToBoxSub_entries v items attrs :
  isinstance_dict v = true ->
  distinct (map fst (mapping_entries v)) = true ->
  convertToBoxSub v = Return (VBox items attrs) ->
  attrs = items
  /\ map fst items = map fst (mapping_entries v)
  /\ forall k x, dict_get k (mapping_entries v) = Some x ->
       (isinstance_dict x = false -> dict_get k items = Some x)
       /\ (isinstance_dict x = true ->
           exists y b, convertToBoxSub x = Return y
                       /\ Box_wrap y = Return b
                       /\ dict_get k items = Some b
                       /\ isinstance_Box b = true).
Proof.
  intros Hm Hd Hc.
  assert (Hex : exists d',
             convert_entries convertToBoxSub (mapping_entries v) = Return d'
             /\ Box_init d' = Return (VBox items attrs)).
  { destruct v; try discriminate; simpl.
    - rewrite convertToBoxSub_VDict in Hc.
      destruct (convert_entries convertToBoxSub d) as [d'|]; [|discriminate].
      now exists d'.
    - rewrite convertToBoxSub_VBox in Hc.
      destruct (shadowed attrs0 "keys"); [discriminate|].
      destruct (convert_entries convertToBoxSub items0) as [d'|];
        [|discriminate].
      exists d'. split; [reflexivity|].
      rewrite Box_wrap_VBox in Hc.
      now destruct (shadowed _ "items"). }
  destruct Hex as (d' & Hd' & Hb). set (d := mapping_entries v) in *.
  rewrite convert_entries_wrap in Hd'.
  pose proof (wrap_entries_keys _ _ _ Hd') as Hk'.
  destruct (Box_init_distinct d' _ ltac:(now rewrite Hk') Hb)
    as (w & Hw & Heq).
  injection Heq as -> ->.
  pose proof (wrap_entries_keys _ _ _ Hw) as Hkw.
  split; [reflexivity|]. split; [congruence|].
  intros k x Hx.
  destruct (wrapped_get_Some _ _ _ _ _ Hd' Hx) as (y & Hy & Hgy).
  destruct (wrapped_get_Some _ _ _ _ _ Hw Hgy) as (b & Hbw & Hgb).
  split.
  - intros Hnd. rewrite Hnd in Hy. injection Hy as <-.
    rewrite (Box_wrap_other x Hnd) in Hbw. now injection Hbw as <-.
  - intros Hisd. rewrite Hisd in Hy.
    pose proof (convertToBoxSub_mapping x y Hisd Hy) as Hbox.
    exists y, b. split; [exact Hy|]. split; [exact Hbw|].
    split; [exact Hgb|].
    destruct y as [ | | | | | | yi ya | ]; try discriminate.
    destruct (Box_wrap_mapping_Box (VBox yi ya) b eq_refl Hbw)
      as (d0 & wr & _ & _ & ->).
    reflexivity.
Qed.

(** ** Lists in the data *)




(** ** Wrapping twice *)

(** C6. [_evaluate] leaves a Box entry alone, but [execute] converts it
    again: for the AttributeMap [Box({'items': 1})], which a first call of
    [execute] on [{'a': {'items': 1}}] leaves in the data, [convertToBoxSub]
    raises TypeError instead of returning it, so a second call on the same
    data fails before the script runs; the same happens in a first call
    when the mapping sits two levels down. *)
Theorem rewrapping_Box_with_items_key_raises :
  AttributeMap box_items
  /\ _evaluate_lcls (VDict [("a", box_items)]) = Return [("a", box_items)]
  /\ execute Mini.exec Mini.repr demo_task "x = 1" []
             (state_of [("a", VDict [("items", VInt 1)])])
     = (Return tt, state_of [("a", box_items); ("x", VInt 1)])
  /\ convertToBoxSub box_items
     = Raise (PyExc "TypeError" [VStr "'int' object is not callable"])
  /\ execute Mini.exec Mini.repr demo_task "x = 1" []
             (state_of [("a", box_items); ("x", VInt 1)])
     = (Raise (PyExc "TypeError" [VStr "'int' object is not callable"]),
        state_of [("a", box_items); ("x", VInt 1)])
  /\ fst (execute Mini.exec Mini.repr demo_task "x = 1" []
                  (state_of [("a", VDict [("b", VDict [("items", VInt 1)])])]))
     = Raise (PyExc "TypeError" [VStr "'int' object is not callable"]).
Proof.
  split; [simpl; repeat split|].
  repeat split; reflexivity.
Qed.

(** ** Which binding a name resolves to *)

Lemma dict_get_rev_None {A} k (d : list (string * A)) :
  dict_get k d = None -> dict_get k (rev d) = None.
Proof.
  intros H. apply dict_get_None_not_In in H. apply dict_get_None_not_In.
  unfold dict_keys in *. rewrite map_rev. intros Hin. apply H.
  now apply in_rev in Hin.
Qed.

(** The precedence inside an assembled globals mapping: the extensions
    over the data over the engine bindings. *)
Lemma assembled_globals_get (g data ext : dict) x :
  NoDup (dict_keys ext) ->
  dict_get x (dict_update (dict_update g data) ext)
  = match dict_get x ext with
    | Some v => Some v
    | None => match dict_get x (rev data) with
              | Some v => Some v
              | None => dict_get x g
              end
    end.
Proof.
  intros Hext. rewrite dict_get_update, (dict_get_rev_unique x ext Hext).
  destruct (dict_get x ext); [reflexivity|]. apply dict_get_update.
Qed.

Lemma resolve_locals x g l v :
  dict_get x l = Some v -> resolve x g l = Some v.
Proof. intros H. unfold resolve. now rewrite H. Qed.

Lemma resolve_extension x g data ext l v :
  NoDup (dict_keys ext) ->
  dict_get x l = None -> dict_get x ext = Some v ->
  resolve x (dict_update (dict_update g data) ext) l = Some v.
Proof.
  intros Hext Hl Hx. unfold resolve. rewrite Hl.
  now rewrite assembled_globals_get, Hx.
Qed.

Lemma resolve_engine x g data ext l v :
  NoDup (dict_keys ext) ->
  dict_get x l = None -> dict_get x data = None -> dict_get x ext = None ->
  dict_get x g = Some v ->
  resolve x (dict_update (dict_update g data) ext) l = Some v.
Proof.
  intros Hext Hl Hd Hx Hg. unfold resolve. rewrite Hl.
  now rewrite assembled_globals_get, Hx, (dict_get_rev_None _ _ Hd).
Qed.

Lemma Mini_load_name_resolve x g l v :
  resolve x g l = Some v -> Mini.load_name x g l = Return v.
Proof.
  unfold resolve, Mini.load_name. destruct (dict_get x l).
  - now intros [= ->].
  - now intros ->.
Qed.

(** The globals the fragment reads: [__builtins__] is the only name the
    builtins add. *)
Lemma resolve_with_builtins x g l v :
  x <> "__builtins__" ->
  resolve x g l = Some v -> resolve x (Mini.with_builtins g) l = Some v.
Proof.
  intros Hx. unfold resolve, Mini.with_builtins.
  destruct (dict_get x l); [auto|].
  destruct (dict_mem "__builtins__" g); [auto|].
  rewrite dict_get_set. destruct (String.eqb x "__builtins__") eqn:E; [|auto].
  apply String.eqb_eq in E. contradiction.
Qed.

(** The fragment reads a name as [resolve] says. *)
Lemma Mini_eval_name g l v :
  resolve "n" g l = Some v -> value_of (Mini.eval "n" g l) = Return v.
Proof.
  intros H. apply (resolve_with_builtins "n") in H; [|discriminate].
  now apply Mini_load_name_resolve.
Qed.

Lemma Mini_eval_Box g l v :
  resolve "Box" g l = Some v -> value_of (Mini.eval "Box" g l) = Return v.
Proof.
  intros H. apply (resolve_with_builtins "Box") in H; [|discriminate].
  now apply Mini_load_name_resolve.
Qed.

Lemma Mini_exec_assign x g l v :
  x = "n" \/ x = "Box" ->
  resolve x g l = Some v ->
  locals_after (Mini.exec ("r" ++ " = " ++ x) g l) = dict_set "r" v l
  /\ raised (Mini.exec ("r" ++ " = " ++ x) g l) = None.
Proof.
  intros Hx H.
  assert (Hload : Mini.load_name x (Mini.with_builtins g) l = Return v).
  { apply Mini_load_name_resolve, resolve_with_builtins; [|exact H].
    destruct Hx as [-> | ->]; discriminate. }
  destruct Hx as [-> | ->].
  - change (Mini.exec ("r" ++ " = " ++ "n") g l)
      with (match Mini.load_name "n" (Mini.with_builtins g) l with
            | Return v => {| globals_after := Mini.with_builtins g;
                             locals_after := dict_set "r" v l;
                             raised := None |}
            | Raise err =>
                {| globals_after := Mini.with_builtins g;
                   locals_after := l;
                   raised := Some (err, [ Mini.engine_frame;
                                          {| filename := "<string>";
                                             lineno := 1 |} ]) |}
            end).
    rewrite Hload. now split.
  - change (Mini.exec ("r" ++ " = " ++ "Box") g l)
      with (match Mini.load_name "Box" (Mini.with_builtins g) l with
            | Return v => {| globals_after := Mini.with_builtins g;
                             locals_after := dict_set "r" v l;
                             raised := None |}
            | Raise err =>
                {| globals_after := Mini.with_builtins g;
                   locals_after := l;
                   raised := Some (err, [ Mini.engine_frame;
                                          {| filename := "<string>";
                                             lineno := 1 |} ]) |}
            end).
    rewrite Hload. now split.
Qed.

(** An extension does not shadow task data in [_evaluate]: the name is
    read from the locals, which hold the task data. *)
Lemma extension_does_not_shadow_task_data :
  fst (_evaluate Mini.eval "x" (VDict [("x", VInt 1)]) [("x", VInt 2)]
                 (state_of []))
  = Return (VInt 1)
  /\ _evaluate_lcls (VDict [("x", VInt 1)]) = Return [("x", VInt 1)]
  /\ dict_get "x" (eval_globals (state_of []) [("x", VInt 1)]
                                [("x", VInt 2)]) = Some (VInt 2)
  /\ ~ (forall x context ext s lcls v w,
           _evaluate_lcls context = Return lcls ->
           dict_get x lcls = Some w ->
           dict_get x ext = Some v ->
           fst (_evaluate Mini.eval x context ext s) = Return v).
Proof.
  split; [reflexivity|]. split; [reflexivity|]. split; [reflexivity|].
  intros H.
  specialize (H "x" (VDict [("x", VInt 1)]) [("x", VInt 2)] (state_of [])
                [("x", VInt 1)] (VInt 2) (VInt 1) eq_refl eq_refl eq_refl).
  discriminate H.
Qed.

(** C2 (amended). [_evaluate] calls [eval], and [execute] calls [exec],
    with a globals mapping in which the extensions override the task data,
    which overrides the engine bindings, and with the task data as the
    locals; a name read at the top level of the expression or script is
    read from the locals first.  So, for an interpreter that reads the name
    [x] in this way: in [_evaluate] a name bound in the task data resolves
    to the task-data value, whatever the extensions and the engine bind it
    to; a name bound in the extensions and not in the task data resolves to
    the extension's value, also when the engine binds it; a name bound by
    the engine alone resolves to the engine's value.  The same holds for
    the script [y = x] run by [execute], where the guard has excluded a key
    of [data] bound by the engine or the extensions. *)
Theorem name_resolution_precedence
        (py_eval : string -> dict -> dict -> eval_result)
        (py_exec : string -> dict -> dict -> exec_result)
        (py_repr : string -> string)
        (x y : string) (task : Task) (context : value) (lcls ext : dict)
        (s : state) :
  (forall g l v, resolve x g l = Some v ->
                 value_of (py_eval x g l) = Return v) ->
  (forall g l v, resolve x g l = Some v ->
                 locals_after (py_exec (y ++ " = " ++ x) g l) = dict_set y v l
                 /\ raised (py_exec (y ++ " = " ++ x) g l) = None) ->
  distinct (map fst ext) = true ->
  _evaluate_lcls context = Return lcls ->
  (exists globals,
      (forall py_eval' src,
          _evaluate py_eval' src context ext s
          = (value_of (py_eval' src globals lcls), s))
      /\ forall k,
          dict_get k globals
          = match dict_get k ext with
            | Some v => Some v
            | None => match dict_get k lcls with
                      | Some v => Some v
                      | None => dict_get k (self_globals s)
                      end
            end)
  /\ (forall v, dict_get x lcls = Some v ->
                fst (_evaluate py_eval x context ext s) = Return v)
  /\ (forall v, dict_get x lcls = None -> dict_get x ext = Some v ->
                fst (_evaluate py_eval x context ext s) = Return v)
  /\ (forall v, dict_get x lcls = None -> dict_get x ext = None ->
                dict_get x (self_globals s) = Some v ->
                fst (_evaluate py_eval x context ext s) = Return v)
  /\ ((forall k, ~ collides (self_globals s) ext (data_obj s) k) ->
      fst (convertToBox (data_obj s)) = None ->
      (exists globals locals,
          (forall py_exec' script,
              execute py_exec' py_repr task script ext s
              = (match raised (py_exec' script globals locals) with
                 | None => Return tt
                 | Some (err, tb) => handle_error task script err tb
                 end,
                 {| self_globals := self_globals s;
                    data_obj := locals_after (py_exec' script globals locals)
                 |}))
          /\ locals = snd (convertToBox (data_obj s))
          /\ (distinct (map fst (data_obj s)) = true ->
              forall k,
                dict_get k globals
                = match dict_get k ext with
                  | Some v => Some v
                  | None => match dict_get k locals with
                            | Some v => Some v
                            | None => dict_get k (self_globals s)
                            end
                  end))
      /\ forall v,
        (dict_get x (exec_locals s) = Some v
         \/ (dict_get x (exec_locals s) = None /\ dict_get x ext = Some v)
         \/ (dict_get x (exec_locals s) = None /\ dict_get x ext = None
             /\ dict_get x (self_globals s) = Some v)) ->
        execute py_exec py_repr task (y ++ " = " ++ x) ext s
        = (Return tt, {| self_globals := self_globals s;
                         data_obj := dict_set y v (exec_locals s) |})).
Proof.
  intros Heval Hexec Hext Hl. apply distinct_NoDup in Hext.
  change (map fst ext) with (dict_keys ext) in Hext.
  assert (Hlc : forall k, dict_get k (rev lcls) = dict_get k lcls)
    by (intros k; apply dict_get_rev_unique;
        now apply (_evaluate_lcls_keys_NoDup context)).
  split; [|split; [|split; [|split]]].
  - exists (eval_globals s lcls ext). split.
    + intros py_eval' src. now rewrite _evaluate_unfold, Hl.
    + intros k. unfold eval_globals.
      now rewrite (assembled_globals_get _ _ _ _ Hext), Hlc.
  - intros v Hv. rewrite _evaluate_unfold, Hl. simpl.
    apply Heval. now apply resolve_locals.
  - intros v Hx Hxe. rewrite _evaluate_unfold, Hl. simpl.
    apply Heval. now apply resolve_extension.
  - intros v Hx Hxe Hg. rewrite _evaluate_unfold, Hl. simpl.
    apply Heval. now apply resolve_engine.
  - intros Hnone Hc. split.
    + exists (exec_globals s ext), (exec_locals s). split; [|split].
      * intros py_exec' script.
        rewrite (execute_no_collision _ _ _ _ _ _ Hnone).
        unfold execute_after_guard, exec_globals, exec_locals.
        destruct (convertToBox (data_obj s)) as [[e|] data]; [discriminate|].
        reflexivity.
      * reflexivity.
      * intros Hd k. unfold exec_globals.
        rewrite (assembled_globals_get _ _ _ _ Hext).
        rewrite (dict_get_rev_unique k (exec_locals s)); [reflexivity|].
        unfold dict_keys, exec_locals. rewrite convertToBox_keys.
        now apply distinct_NoDup.
    + intros v Hv.
      rewrite (execute_no_collision _ _ _ _ _ _ Hnone).
      unfold execute_after_guard, exec_locals in *.
      destruct (convertToBox (data_obj s)) as [[e|] data]; [discriminate|].
      simpl in Hv.
      assert (Hres : resolve x
                       (dict_update (dict_update (self_globals s) data) ext)
                       data = Some v).
      { destruct Hv as [Hv | [[Hx Hxe] | (Hx & Hxe & Hg)]].
        - now apply resolve_locals.
        - now apply resolve_extension.
        - now apply resolve_engine. }
      cbv zeta. destruct (Hexec _ _ _ Hres) as [-> ->]. reflexivity.
Qed.

Lemma name_resolution_precedence_witness :
  fst (_evaluate Mini.eval "n" (VDict [("n", VInt 1)])
                 [("n", VInt 2); ("Box", VInt 3)] (state_of []))
  = Return (VInt 1)
  /\ fst (_evaluate (eval_in_nested_scope "n") "(lambda: n)()"
                    (VDict [("n", VInt 1)])
                    [("n", VInt 2); ("Box", VInt 3)] (state_of []))
     = Return (VInt 2)
  /\ execute Mini.exec Mini.repr demo_task "r = Box" [("Box", VInt 3)]
             (state_of [])
     = (Return tt, state_of [("r", VInt 3)]).
Proof.
  pose proof (name_resolution_precedence
                Mini.eval Mini.exec Mini.repr "n" "r" demo_task
                (VDict [("n", VInt 1)]) [("n", VInt 1)]
                [("n", VInt 2); ("Box", VInt 3)]
                (state_of [])
                (fun g l v H => Mini_eval_name g l v H)
                (fun g l v H => Mini_exec_assign "n" g l v
                                  (or_introl eq_refl) H)
                eq_refl eq_refl) as Hn.
  pose proof (name_resolution_precedence
                Mini.eval Mini.exec Mini.repr "Box" "r" demo_task
                VNone [] [("Box", VInt 3)] (state_of [])
                (fun g l v H => Mini_eval_Box g l v H)
                (fun g l v H => Mini_exec_assign "Box" g l v
                                  (or_intror eq_refl) H)
                eq_refl eq_refl) as Hb.
  split; [|split].
  - exact (proj1 (proj2 Hn) (VInt 1) eq_refl).
  - destruct Hn as [(globals & Hcall & Hget) _].
    rewrite Hcall. unfold eval_in_nested_scope. cbn [fst value_of].
    specialize (Hget "n"). cbn in Hget.
    assert (Hb' : dict_get "n" (Mini.with_builtins globals) = Some (VInt 2)).
    { unfold Mini.with_builtins.
      destruct (dict_mem "__builtins__" globals); [exact Hget|].
      now rewrite dict_get_set. }
    now rewrite Hb'.
  - destruct Hb as (_ & _ & _ & _ & Hexec).
    destruct Hexec as [_ Hexec].
    + intros k [Hk _]. discriminate Hk.
    + reflexivity.
    + apply (Hexec (VInt 3)). right. left. split; reflexivity.
Defined.

(** * Further properties of the code *)

(** ** Attribute access on a Box *)

(** X1. Field access on a Box fails in one way only: with the
    AttributeError of Box.__getattr__ that names the attribute, and only
    for a name held by neither store nor by the class; the KeyError of the
    item lookup never escapes.  A key that only the dict store holds is
    still reached by field access, through Box.__getattr__. *)
Theorem getattr_fails_with_AttributeError (b : dict * dict) (name : string) :
  (forall e, getattr b name = Raise e ->
     e = PyExc "AttributeError"
           [VStr ("Dictionary has no attribute '" ++ name ++ "' ")]
     /\ dict_get name (fst b) = None /\ dict_get name (snd b) = None
     /\ Box_data_descriptor name = false /\ Box_class_attribute name = false)
  /\ (Box_data_descriptor name = false -> Box_class_attribute name = false ->
      dict_get name (snd b) = None ->
      (forall v, dict_get name (fst b) = Some v -> getattr b name = Return v)
      /\ (dict_get name (fst b) = None ->
          getattr b name
          = Raise (PyExc "AttributeError"
                     [VStr ("Dictionary has no attribute '" ++ name ++ "' ")]))).
Proof.
  unfold getattr, Box_getattr, Box_getitem, Box_class_attribute. split.
  - intros e. destruct (Box_data_descriptor name); [discriminate|].
    destruct (dict_get name (snd b)); [discriminate|].
    destruct (Box_class_lookup name); [discriminate|].
    destruct (dict_get name (fst b)); [discriminate|].
    intros [= <-]. repeat split; reflexivity.
  - intros -> Hc ->. destruct (Box_class_lookup name); [discriminate|].
    split.
    + intros v ->. reflexivity.
    + intros ->. reflexivity.
Qed.

Lemma getattr_fails_with_AttributeError_witness :
  getattr ([("a", VInt 1)], []) "a" = Return (VInt 1)
  /\ getattr ([("a", VInt 1)], []) "z"
     = Raise (PyExc "AttributeError"
                [VStr "Dictionary has no attribute 'z' "]).
Proof.
  split.
  - apply (getattr_fails_with_AttributeError ([("a", VInt 1)], []) "a");
      reflexivity.
  - apply (getattr_fails_with_AttributeError ([("a", VInt 1)], []) "z");
      reflexivity.
Defined.

(** X2. Storing and deleting through a Box touch one key only.  After
    [b[k] = v] item access at [k] returns [v] as it was given (a plain dict
    is stored unwrapped) and every other key reads as before through both
    styles; [del b[k]] of a key both stores hold makes item access at [k]
    raise KeyError and field access at [k] raise AttributeError, leaving
    every other key as before; [del b[k]] of a key the dict store does not
    hold raises KeyError and changes nothing. *)
Theorem Box_set_delete_frame (b : dict * dict) (k : string) :
  (forall v, Box_getitem (Box_setitem b k v) k = Return v)
  /\ (forall v k', k' <> k ->
        Box_getitem (Box_setitem b k v) k' = Box_getitem b k'
        /\ (Box_data_descriptor k' = false ->
            getattr (Box_setitem b k v) k' = getattr b k'))
  /\ (dict_mem k (fst b) = false ->
      Box_delitem b k = (Raise (PyExc "KeyError" [VStr k]), b))
  /\ (dict_mem k (fst b) = true -> dict_mem k (snd b) = true ->
      exists b',
        Box_delitem b k = (Return tt, b')
        /\ Box_getitem b' k = Raise (PyExc "KeyError" [VStr k])
        /\ (Box_data_descriptor k = false -> Box_class_attribute k = false ->
            getattr b' k
            = Raise (PyExc "AttributeError"
                       [VStr ("Dictionary has no attribute '" ++ k ++ "' ")]))
        /\ forall k', k' <> k ->
             Box_getitem b' k' = Box_getitem b k'
             /\ (Box_data_descriptor k' = false ->
                 getattr b' k' = getattr b k')).
Proof.
  split; [|split; [|split]].
  - intros v. apply Box_getitem_Return.
    rewrite (proj1 (Box_setitem_stores b k v k)). now rewrite String.eqb_refl.
  - intros v k' Hne.
    assert (E : String.eqb k' k = false)
      by (destruct (String.eqb k' k) eqn:E; [apply String.eqb_eq in E|];
          congruence).
    destruct (Box_setitem_stores b k v k') as [Hi Ha]. rewrite E in Hi, Ha.
    split.
    + unfold Box_getitem. now rewrite Hi.
    + intros Hd. unfold getattr, Box_getattr, Box_getitem.
      now rewrite Hd, Ha, Hi.
  - intros Hk. unfold Box_delitem. now rewrite Hk.
  - intros Hi Ha. exists (dict_del k (fst b), dict_del k (snd b)).
    split; [unfold Box_delitem; simpl; now rewrite Hi, Ha|].
    split; [unfold Box_getitem; simpl;
            now rewrite dict_get_del, String.eqb_refl|].
    split.
    + intros Hd Hc. unfold getattr, Box_getattr, Box_getitem. simpl.
      unfold Box_class_attribute in Hc.
      destruct (Box_class_lookup k); [discriminate|].
      now rewrite Hd, !dict_get_del, String.eqb_refl.
    + intros k' Hne.
      assert (E : String.eqb k' k = false)
        by (destruct (String.eqb k' k) eqn:E; [apply String.eqb_eq in E|];
            congruence).
      split.
      * unfold Box_getitem. simpl. now rewrite dict_get_del, E.
      * intros Hd. unfold getattr, Box_getattr, Box_getitem. simpl.
        now rewrite Hd, !dict_get_del, E.
Qed.

Lemma Box_set_delete_frame_witness :
  Box_getitem (Box_setitem ([("a", VInt 1)], [("a", VInt 1)]) "b"
                           (VDict [("c", VInt 2)])) "a"
  = Return (VInt 1)
  /\ Box_delitem ([("a", VInt 1)], [("a", VInt 1)]) "z"
     = (Raise (PyExc "KeyError" [VStr "z"]),
        ([("a", VInt 1)], [("a", VInt 1)]))
  /\ exists b', Box_delitem ([("a", VInt 1)], [("a", VInt 1)]) "a"
                = (Return tt, b').
Proof.
  destruct (Box_set_delete_frame ([("a", VInt 1)], [("a", VInt 1)]) "b")
    as (_ & Hset & _).
  destruct (Box_set_delete_frame ([("a", VInt 1)], [("a", VInt 1)]) "z")
    as (_ & _ & Hmiss & _).
  destruct (Box_set_delete_frame ([("a", VInt 1)], [("a", VInt 1)]) "a")
    as (_ & _ & _ & Hdel).
  split; [|split].
  - rewrite (proj1 (Hset (VDict [("c", VInt 2)]) "a" ltac:(discriminate))).
    reflexivity.
  - apply Hmiss. reflexivity.
  - destruct (Hdel eq_refl eq_refl) as (b' & Hb' & _). now exists b'.
Defined.

(** ** The constructor with keyword arguments *)



Lemma Box_store_Raise : forall entries b e b',
  Box_store entries b = (Raise e, b') ->
  wrap_entries Box_wrap entries = Raise e.
Proof.
  induction entries as [|kv r IH]; intros b e b' H; simpl in *.
  - discriminate.
  - destruct (Box_wrap (snd kv)) as [w0|]; [|now injection H as <-].
    now rewrite (IH _ _ _ H).
Qed.




(** X4. [Box(pairs)] for a positional argument that is not a mapping: the
    entries that dict.__init__ reads from it go to the dict store as they
    are (a dict value is not wrapped) and the instance __dict__ stays
    empty.  Item access returns them and field access reaches them through
    Box.__getattr__, unless the key names an attribute of the class, which
    field access returns instead: None for [__hash__], the str of the
    class for [__doc__] and [__module__], the bound method for the name of
    a method.  Deleting such a key raises KeyError after the key has been
    removed from the dict store. *)
Theorem Box_new_from_pairs
        (dict_of_iterable : value -> outcome dict) (v : value) (pairs : dict) :
  isinstance_dict v = false ->
  dict_of_iterable v = Return pairs ->
  Box_new dict_of_iterable (Some v) []
  = Return (VBox (dict_update [] pairs) [])
  /\ forall k x,
      dict_get k (dict_update [] pairs) = Some x ->
      Box_getitem (dict_update [] pairs, []) k = Return x
      /\ (Box_data_descriptor k = false ->
          getattr (dict_update [] pairs, []) k
          = match Box_class_lookup k with
            | Some a => Return a
            | None => Return x
            end)
      /\ (k = "__hash__" ->
          getattr (dict_update [] pairs, []) k = Return VNone)
      /\ (k = "__doc__" \/ k = "__module__" ->
          exists text, getattr (dict_update [] pairs, []) k
                       = Return (VStr text))
      /\ Box_delitem (dict_update [] pairs, []) k
         = (Raise (PyExc "KeyError" [VStr k]),
            (dict_del k (dict_update [] pairs), []))
      /\ Box_getitem (dict_del k (dict_update [] pairs), []) k
         = Raise (PyExc "KeyError" [VStr k]).
Proof.
  intros Hv Hp. split.
  - unfold Box_new, Box___init__.
    destruct v; try discriminate; rewrite Hp; reflexivity.
  - intros k x Hk.
    assert (Hget : Box_data_descriptor k = false ->
                   getattr (dict_update [] pairs, []) k
                   = match Box_class_lookup k with
                     | Some a => Return a
                     | None => Return x
                     end).
    { intros Hd. unfold getattr, Box_getattr, Box_getitem. simpl.
      rewrite Hd, Hk. reflexivity. }
    split; [|split; [|split; [|split; [|split]]]].
    + unfold Box_getitem. simpl. now rewrite Hk.
    + exact Hget.
    + intros ->. now rewrite Hget.
    + intros [-> | ->]; rewrite Hget by reflexivity; eexists; reflexivity.
    + unfold Box_delitem, dict_mem. simpl. now rewrite Hk.
    + unfold Box_getitem. simpl. now rewrite dict_get_del, String.eqb_refl.
Qed.

Lemma Box_new_from_pairs_witness :
  Box_new (fun _ => Return [("a", VDict [("b", VInt 1)]); ("__hash__", VInt 5)])
          (Some (VList [VList [VStr "a"; VDict [("b", VInt 1)]];
                        VList [VStr "__hash__"; VInt 5]])) []
  = Return (VBox [("a", VDict [("b", VInt 1)]); ("__hash__", VInt 5)] [])
  /\ getattr ([("a", VDict [("b", VInt 1)]); ("__hash__", VInt 5)], []) "a"
     = Return (VDict [("b", VInt 1)])
  /\ getattr ([("a", VDict [("b", VInt 1)]); ("__hash__", VInt 5)], [])
             "__hash__"
     = Return VNone.
Proof.
  destruct (Box_new_from_pairs
              (fun _ => Return [("a", VDict [("b", VInt 1)]);
                                ("__hash__", VInt 5)])
              (VList [VList [VStr "a"; VDict [("b", VInt 1)]];
                      VList [VStr "__hash__"; VInt 5]])
              [("a", VDict [("b", VInt 1)]); ("__hash__", VInt 5)]
              eq_refl eq_refl) as [Hnew Hacc].
  split; [exact Hnew|]. split.
  - destruct (Hacc "a" (VDict [("b", VInt 1)]) eq_refl) as (_ & Hget & _).
    exact (Hget eq_refl).
  - destruct (Hacc "__hash__" (VInt 5) eq_refl) as (_ & _ & Hhash & _).
    exact (Hhash eq_refl).
Defined.

(** ** Copies and pickling *)







(** ** The engine's names and the guard *)

Lemma default_names_bound k :
  In k default_names -> dict_mem k (PythonScriptEngine_init []) = true.
Proof.
  intros [<-|[<-|[<-|[<-|[<-|[]]]]]]; reflexivity.
Qed.

Lemma PythonScriptEngine_init_mem additions k :
  dict_mem k (PythonScriptEngine_init additions)
  = (dict_mem k (PythonScriptEngine_init []) || dict_mem k additions)%bool.
Proof. unfold PythonScriptEngine_init. apply dict_mem_update. Qed.

(** X7. Every name the engine is built with is protected by the guard: the
    five default names and every key of the scripting additions, whose
    value replaces a default of the same name.  A call of [execute] whose
    data has such a key raises the guard's error, which names the key, and
    leaves the data as it was. *)
Theorem engine_names_are_guarded
        (py_exec : string -> dict -> dict -> exec_result)
        (py_repr : string -> string)
        (task : Task) (script : string) (ext additions data : dict)
        (k : string) :
  (distinct (map fst additions) = true ->
   forall v, dict_get k additions = Some v ->
             dict_get k (PythonScriptEngine_init additions) = Some v)
  /\ (In k default_names \/ dict_mem k additions = true ->
      dict_mem k (PythonScriptEngine_init additions) = true
      /\ (dict_mem k data = true ->
          exists msg,
            execute py_exec py_repr task script ext
                    {| self_globals := PythonScriptEngine_init additions;
                       data_obj := data |}
            = (Raise (WorkflowTaskExecException task (overwrite_prefix ++ msg)
                        None None None),
               {| self_globals := PythonScriptEngine_init additions;
                  data_obj := data |})
            /\ contains (py_repr k) msg)).
Proof.
  split.
  - intros Hd v Hv. unfold PythonScriptEngine_init.
    rewrite dict_get_update, dict_get_rev_unique, Hv; [reflexivity|].
    now apply distinct_NoDup.
  - intros Hk.
    assert (Hm : dict_mem k (PythonScriptEngine_init additions) = true).
    { rewrite PythonScriptEngine_init_mem. destruct Hk as [Hk|Hk].
      - now rewrite (default_names_bound k Hk).
      - rewrite Hk. apply orb_true_r. }
    split; [exact Hm|]. intros Hdata.
    set (s := {| self_globals := PythonScriptEngine_init additions;
                 data_obj := data |}).
    assert (Hc : collides (self_globals s) ext (data_obj s) k)
      by (split; [exact Hdata | left; exact Hm]).
    exists (set_repr py_repr
              (func_overwrites (self_globals s) ext (data_obj s))).
    split; [now apply execute_collision with (k := k)|].
    unfold set_repr.
    apply contains_app_r, contains_app_l, contains_concat, in_map.
    now apply In_func_overwrites.
Qed.

Lemma engine_names_are_guarded_witness :
  dict_get "pytz" (PythonScriptEngine_init [("pytz", VInt 0)]) = Some (VInt 0)
  /\ exists msg,
      execute Mini.exec Mini.repr demo_task "a = 1" []
              {| self_globals := PythonScriptEngine_init [("helper", VInt 0)];
                 data_obj := [("helper", VInt 5)] |}
      = (Raise (WorkflowTaskExecException demo_task (overwrite_prefix ++ msg)
                  None None None),
         {| self_globals := PythonScriptEngine_init [("helper", VInt 0)];
            data_obj := [("helper", VInt 5)] |})
      /\ contains (Mini.repr "helper") msg.
Proof.
  split.
  - apply (engine_names_are_guarded Mini.exec Mini.repr demo_task "a = 1" []
             [("pytz", VInt 0)] [] "pytz"); reflexivity.
  - apply (engine_names_are_guarded Mini.exec Mini.repr demo_task "a = 1" []
             [("helper", VInt 0)] [("helper", VInt 5)] "helper").
    + right. reflexivity.
    + reflexivity.
Defined.

Lemma set_intersection_NoDup (s : list string) (data : dict) :
  NoDup s -> NoDup (set_intersection s data).
Proof. intros H. unfold set_intersection. now apply NoDup_filter. Qed.

(** X8. The names listed by the guard are exactly the colliding keys, each
    of them once, also when both the engine and the extensions bind it;
    the list depends on the keys of the three mappings only, not on the
    values bound. *)
Theorem func_overwrites_lists_each_collision_once
        (g ext data g' ext' data' : dict) :
  NoDup (func_overwrites g ext data)
  /\ (forall k, In k (func_overwrites g ext data) <-> collides g ext data k)
  /\ (map fst g = map fst g' -> map fst ext = map fst ext' ->
      map fst data = map fst data' ->
      func_overwrites g ext data = func_overwrites g' ext' data').
Proof.
  split; [|split].
  - unfold func_overwrites, set_update, set_of.
    set (s := set_intersection (nodup string_dec (dict_keys g)) data).
    set (t := set_intersection (nodup string_dec (dict_keys ext)) data).
    assert (Hs : NoDup s) by (apply set_intersection_NoDup, NoDup_nodup).
    assert (Ht : NoDup t) by (apply set_intersection_NoDup, NoDup_nodup).
    apply NoDup_app; [exact Hs | now apply NoDup_filter |].
    intros y Hy Hin. apply filter_In in Hin. destruct Hin as [_ Hin].
    apply negb_true_iff in Hin.
    assert (mem y s = true) by (now apply mem_In). congruence.
  - intros k. apply In_func_overwrites.
  - intros Hg He Hd. unfold func_overwrites, set_intersection, dict_keys.
    rewrite Hg, He.
    assert (Hm : forall k, dict_mem k data = dict_mem k data')
      by (intros k; now apply dict_mem_same_keys).
    f_equal; apply filter_ext; intros k; apply Hm.
Qed.

Lemma func_overwrites_lists_each_collision_once_witness :
  func_overwrites [("Box", VObj "Box")] [("Box", VInt 1)] [("Box", VInt 2)]
  = func_overwrites [("Box", VInt 0)] [("Box", VInt 0)] [("Box", VInt 0)]
  /\ func_overwrites [("Box", VObj "Box")] [("Box", VInt 1)] [("Box", VInt 2)]
     = ["Box"].
Proof.
  split; [|reflexivity].
  apply (func_overwrites_lists_each_collision_once
           [("Box", VObj "Box")] [("Box", VInt 1)] [("Box", VInt 2)]
           [("Box", VInt 0)] [("Box", VInt 0)] [("Box", VInt 0)]);
    reflexivity.
Defined.

(** ** What [evaluate] and [execute] let through *)

(** X9. With an Operator as expression, [evaluate] is the Operator's own
    answer for the task: the value it returns, or its failure reported as
    an expression-evaluation error that quotes the text of the Operator;
    [eval] is not called and neither the engine bindings nor the caller's
    data play a part, so the outcome is the same for every interpreter and
    every state, and the state is left as it was. *)
Theorem evaluate_Operator_bypasses_eval
        (py_eval py_eval' : string -> dict -> dict -> eval_result)
        (py_str : exn -> string) (task : Task)
        (op_str : string) (_matches : Task -> outcome value) (s s' : state) :
  fst (evaluate py_eval py_str task (Operator op_str _matches) s)
  = fst (evaluate py_eval' py_str task (Operator op_str _matches) s')
  /\ snd (evaluate py_eval py_str task (Operator op_str _matches) s) = s
  /\ (forall v, _matches task = Return v ->
        fst (evaluate py_eval py_str task (Operator op_str _matches) s)
        = Return v)
  /\ (forall e, _matches task = Raise e -> is_Exception e = true ->
        fst (evaluate py_eval py_str task (Operator op_str _matches) s)
        = Raise (WorkflowTaskExecException task
                   ("Error evaluating expression '" ++ op_str ++ "', "
                    ++ py_str e) None None None)).
Proof.
  rewrite !evaluate_unfold. simpl. split; [reflexivity|].
  split; [reflexivity|]. split.
  - now intros v ->.
  - intros e -> He. unfold evaluate_except. now rewrite He.
Qed.

Lemma evaluate_Operator_bypasses_eval_witness :
  fst (evaluate Mini.eval Mini.str demo_task
                (Operator "op" (fun t => Return (VStr (task_name t))))
                (state_of []))
  = Return (VStr "task")
  /\ fst (evaluate Mini.eval Mini.str demo_task
                   (Operator "op"
                      (fun _ => Raise (PyExc "ValueError" [VStr "bad"])))
                   (state_of []))
     = Raise (WorkflowTaskExecException demo_task
                "Error evaluating expression 'op', bad" None None None).
Proof.
  destruct (evaluate_Operator_bypasses_eval Mini.eval Mini.eval Mini.str
              demo_task "op" (fun t => Return (VStr (task_name t)))
              (state_of []) (state_of [])) as (_ & _ & Hret & _).
  destruct (evaluate_Operator_bypasses_eval Mini.eval Mini.eval Mini.str
              demo_task "op"
              (fun _ => Raise (PyExc "ValueError" [VStr "bad"]))
              (state_of []) (state_of [])) as (_ & _ & _ & Hraise).
  split.
  - apply Hret. reflexivity.
  - apply (Hraise (PyExc "ValueError" [VStr "bad"])); reflexivity.
Defined.

(** X10. Neither method catches an exception that is not an Exception,
    as SystemExit or KeyboardInterrupt: raised by the script or by the
    expression, it leaves [execute] and [evaluate] as it is, without line
    number or report. *)
Theorem base_exceptions_are_not_wrapped
        (py_eval : string -> dict -> dict -> eval_result)
        (py_exec : string -> dict -> dict -> exec_result)
        (py_str : exn -> string) (py_repr : string -> string)
        (task : Task) (script src : string) (ext : dict) (s : state)
        (err : exn) :
  is_Exception err = false ->
  ((forall k, ~ collides (self_globals s) ext (data_obj s) k) ->
   fst (convertToBox (data_obj s)) = None ->
   forall tb,
     raised (py_exec script (exec_globals s ext) (exec_locals s))
     = Some (err, tb) ->
     fst (execute py_exec py_repr task script ext s) = Raise err)
  /\ (forall lcls,
        _evaluate_lcls (VDict (task_data task)) = Return lcls ->
        value_of (py_eval src (dict_update (self_globals s) lcls) lcls)
        = Raise err ->
        fst (evaluate py_eval py_str task (Text src) s) = Raise err).
Proof.
  intros Herr. split.
  - intros Hnone Hc tb Hr.
    rewrite (execute_raised _ _ _ _ _ _ _ _ Hnone Hc Hr).
    destruct err; [discriminate|]. unfold handle_error. now rewrite Herr.
  - intros lcls Hl He. rewrite evaluate_Text, Hl, He. simpl.
    unfold evaluate_except. now rewrite Herr.
Qed.

Lemma base_exceptions_are_not_wrapped_witness :
  fst (execute (exec_raising (PyExc "SystemExit" []) []) Mini.repr demo_task
               "exit()" [] (state_of []))
  = Raise (PyExc "SystemExit" [])
  /\ fst (evaluate (eval_raising (PyExc "SystemExit" [])) Mini.str demo_task
                   (Text "exit()") (state_of []))
     = Raise (PyExc "SystemExit" []).
Proof.
  destruct (base_exceptions_are_not_wrapped
              (eval_raising (PyExc "SystemExit" []))
              (exec_raising (PyExc "SystemExit" []) [])
              Mini.str Mini.repr demo_task "exit()" "exit()" [] (state_of [])
              (PyExc "SystemExit" []) eq_refl) as (Hexec & Heval).
  split.
  - apply (Hexec ltac:(intros k [Hk _]; discriminate Hk) eq_refl []).
    reflexivity.
  - apply (Heval []); reflexivity.
Defined.

(** Where an interrupted conversion stops. *)
Lemma convertToBox_raised : forall data e data',
  convertToBox data = (Some e, data') ->
  exists done k v rest,
    data = (done ++ (k, v) :: rest)%list
    /\ fst (convertToBox done) = None
    /\ convertToBoxSub v = Raise e
    /\ data' = (snd (convertToBox done)
                ++ (k, snd (convertToBoxSub_in_place v)) :: rest)%list.
Proof.
  induction data as [|[k v] data IH]; intros e data' H; [discriminate|].
  rewrite convertToBox_cons in H. simpl in H.
  destruct (convertToBoxSub v) as [w|e0] eqn:Ev.
  - destruct (convertToBox data) as [[e1|] r] eqn:Er; [|discriminate].
    injection H as <- <-.
    destruct (IH e1 r eq_refl) as (done & k1 & v1 & rest & -> & Hd & Hv & ->).
    exists ((k, v) :: done), k1, v1, rest.
    split; [reflexivity|]. rewrite convertToBox_cons. simpl. rewrite Ev.
    destruct (convertToBox done) as [e2 r2]. simpl in *.
    split; [exact Hd|]. split; [exact Hv | reflexivity].
  - injection H as <- <-. exists [], k, v, data.
    split; [reflexivity|]. split; [reflexivity|]. split; [exact Ev|].
    reflexivity.
Qed.

(** X11. [execute] keeps no copy of the data and undoes nothing.  When the
    conversion of the data raises, [execute] raises that very error,
    unwrapped, without calling [exec], and the data stays as the
    interrupted conversion left it: the entries before the failing one
    converted, the failing one rewritten in place as far as its conversion
    got, the others as they were.  Otherwise the data afterwards is the
    locals mapping as [exec] left it, whether the script completed or
    raised: the bindings a failing script made before it failed stay in the
    data. *)
Theorem execute_does_not_roll_back
        (py_exec : string -> dict -> dict -> exec_result)
        (py_repr : string -> string)
        (task : Task) (script : string) (ext : dict) (s : state) :
  (forall k, ~ collides (self_globals s) ext (data_obj s) k) ->
  (forall e data',
      convertToBox (data_obj s) = (Some e, data') ->
      (forall py_exec',
          execute py_exec' py_repr task script ext s
          = (Raise e, {| self_globals := self_globals s; data_obj := data' |}))
      /\ exists done k v rest,
          data_obj s = (done ++ (k, v) :: rest)%list
          /\ fst (convertToBox done) = None
          /\ convertToBoxSub v = Raise e
          /\ data' = (snd (convertToBox done)
                      ++ (k, snd (convertToBoxSub_in_place v)) :: rest)%list)
  /\ (fst (convertToBox (data_obj s)) = None ->
      data_obj (snd (execute py_exec py_repr task script ext s))
      = locals_after (py_exec script (exec_globals s ext) (exec_locals s))).
Proof.
  intros Hnone. split.
  - intros e data' Hc. split; [|now apply convertToBox_raised].
    intros pe. rewrite (execute_no_collision _ _ _ _ _ _ Hnone).
    unfold execute_after_guard. now rewrite Hc.
  - intros Hc. rewrite (execute_no_collision _ _ _ _ _ _ Hnone).
    unfold execute_after_guard, exec_globals, exec_locals.
    destruct (convertToBox (data_obj s)) as [[e|] data]; [discriminate|].
    reflexivity.
Qed.

Lemma execute_does_not_roll_back_witness :
  data_obj (snd (execute Mini.exec Mini.repr demo_task script_div0 []
                         (state_of [])))
  = [("a", VInt 1)]
  /\ execute Mini.exec Mini.repr demo_task "a = 1" []
             (state_of [("c", VDict []);
                        ("a", VDict [("b", VDict [("items", VInt 1)])]);
                        ("z", VDict [])])
     = (Raise (PyExc "TypeError" [VStr "'int' object is not callable"]),
        state_of [("c", VBox [] []);
                  ("a", VDict [("b", box_items)]);
                  ("z", VDict [])]).
Proof.
  assert (Hfree : forall data : dict,
             (forall k, dict_mem k data = true ->
                        dict_mem k (PythonScriptEngine_init []) = false) ->
             forall k, ~ collides (self_globals (state_of data)) []
                                  (data_obj (state_of data)) k).
  { intros data Hd k [Hk [Hg|Hg]]; [|discriminate Hg].
    simpl in Hk, Hg. rewrite (Hd k Hk) in Hg. discriminate Hg. }
  split.
  - destruct (execute_does_not_roll_back Mini.exec Mini.repr demo_task
                script_div0 [] (state_of [])) as [_ H].
    + apply Hfree. intros k Hk. discriminate Hk.
    + now rewrite (H eq_refl).
  - destruct (execute_does_not_roll_back Mini.exec Mini.repr demo_task
                "a = 1" []
                (state_of [("c", VDict []);
                           ("a", VDict [("b", VDict [("items", VInt 1)])]);
                           ("z", VDict [])])) as [H _].
    + apply Hfree. intros k Hk. apply dict_mem_In in Hk.
      destruct Hk as [<-|[<-|[<-|[]]]]; reflexivity.
    + destruct (H (PyExc "TypeError" [VStr "'int' object is not callable"])
                  [("c", VBox [] []); ("a", VDict [("b", box_items)]);
                   ("z", VDict [])] eq_refl) as [Hexec _].
      exact (Hexec Mini.exec).
Defined.

(** ** What the conversion keeps *)

(** X12. The conversion of the data never adds, drops or reorders a key.
    The top-level keys of [data] are the same after [convertToBox],
    whether it returned or raised; a plain dict is converted to a Box whose
    two stores are one and the same list of entries under the keys of the
    dict, in their order: an entry that is not a dict keeps its value, an
    entry that is a dict holds the Box built from its conversion. *)
Theorem conversion_keeps_keys (data : dict) :
  map fst (snd (convertToBox data)) = map fst data
  /\ forall d items attrs,
      distinct (map fst d) = true ->
      convertToBoxSub (VDict d) = Return (VBox items attrs) ->
      attrs = items
      /\ map fst items = map fst d
      /\ forall k v, dict_get k d = Some v ->
           (isinstance_dict v = false -> dict_get k items = Some v)
           /\ (isinstance_dict v = true ->
               exists x b, convertToBoxSub v = Return x
                           /\ Box_wrap x = Return b
                           /\ dict_get k items = Some b
                           /\ isinstance_Box b = true).
Proof.
  split; [apply convertToBox_keys|].
  intros d items attrs Hd Hc.
  exact (convertToBoxSub_entries (VDict d) items attrs eq_refl Hd Hc).
Qed.

Lemma conversion_keeps_keys_witness :
  convertToBoxSub (VDict [("n", VInt 1); ("m", VDict [("c", VInt 2)])])
  = Return (VBox [("n", VInt 1); ("m", VBox [("c", VInt 2)] [("c", VInt 2)])]
                 [("n", VInt 1); ("m", VBox [("c", VInt 2)] [("c", VInt 2)])])
  /\ map fst [("n", VInt 1); ("m", VBox [("c", VInt 2)] [("c", VInt 2)])]
     = ["n"; "m"].
Proof.
  split; [reflexivity|].
  destruct (conversion_keeps_keys []) as [_ H].
  destruct (H [("n", VInt 1); ("m", VDict [("c", VInt 2)])]
              [("n", VInt 1); ("m", VBox [("c", VInt 2)] [("c", VInt 2)])]
              [("n", VInt 1); ("m", VBox [("c", VInt 2)] [("c", VInt 2)])]
              eq_refl eq_refl) as (_ & Hk & _).
  exact Hk.
Defined.

(** X13. A value without any mapping in it is returned by the conversion
    as it is, so data whose values hold no mapping is left untouched by
    [convertToBox], which then returns. *)
Theorem conversion_leaves_mapping_free_values (data : dict) :
  (forall v, mapping_free v = true -> convertToBoxSub v = Return v)
  /\ (forallb (fun kv => mapping_free (snd kv)) data = true ->
      convertToBox data = (None, data)).
Proof.
  assert (Hv : forall v, mapping_free v = true -> convertToBoxSub v = Return v).
  { induction v as [ | | | | l IHl | | | ] using value_nested_ind;
      intros Hm; try reflexivity; try discriminate.
    rewrite convertToBoxSub_VList. simpl in Hm. rewrite forallb_forall in Hm.
    assert (Hl : convert_elements convertToBoxSub l = Return l).
    { induction l as [|x l IH]; [reflexivity|].
      inversion IHl as [|? ? Hx Hrest]; subst. simpl.
      rewrite (Hx (Hm x (or_introl eq_refl))).
      rewrite IH; [reflexivity | exact Hrest |].
      intros y Hy. apply Hm. now right. }
    now rewrite Hl. }
  split; [exact Hv|].
  induction data as [|[k v] data IH]; intros Hm; [reflexivity|].
  simpl in Hm. apply andb_true_iff in Hm. destruct Hm as [Hm1 Hm2].
  rewrite convertToBox_cons. simpl. rewrite (Hv v Hm1), (IH Hm2).
  reflexivity.
Qed.

Lemma conversion_leaves_mapping_free_values_witness :
  convertToBox [("n", VInt 1); ("l", VList [VStr "a"; VList [VNone]])]
  = (None, [("n", VInt 1); ("l", VList [VStr "a"; VList [VNone]])]).
Proof.
  apply (conversion_leaves_mapping_free_values
           [("n", VInt 1); ("l", VList [VStr "a"; VList [VNone]])]).
  reflexivity.
Defined.

(** ** The scopes handed to the interpreter *)

(** X14. [_evaluate] converts the top level of the context only.  Its
    locals have the keys of the context; an entry that is a plain dict is
    replaced by [Box(...)] of it, and every other entry is passed on as it
    is: a Box, and also a list, whose mappings stay plain dicts (where
    [execute] would convert them). *)
Theorem evaluate_locals_wrap_top_level_dicts_only (d lcls : dict) :
  distinct (map fst d) = true ->
  _evaluate_lcls (VDict d) = Return lcls ->
  map fst lcls = map fst d
  /\ forall k v, dict_get k d = Some v ->
       (forall d', v = VDict d' ->
          exists b, Box_init d' = Return b /\ dict_get k lcls = Some b)
       /\ ((forall d', v <> VDict d') -> dict_get k lcls = Some v).
Proof.
  intros Hd Hl. unfold _evaluate_lcls in Hl.
  rewrite dict_update_nil_unique in Hl by (now apply distinct_NoDup).
  split; [now apply wrap_entries_keys in Hl|].
  intros k v Hv.
  destruct (wrapped_get_Some _ _ _ _ _ Hl Hv) as (x & Hx & Hg).
  split.
  - intros d' ->. now exists x.
  - intros Hnd. destruct v; try (now injection Hx as <-).
    now elim (Hnd d0).
Qed.

Lemma evaluate_locals_wrap_top_level_dicts_only_witness :
  _evaluate_lcls (VDict [("l", VList [VDict [("c", VInt 1)]])])
  = Return [("l", VList [VDict [("c", VInt 1)]])]
  /\ dict_get "l" [("l", VList [VDict [("c", VInt 1)]])]
     = Some (VList [VDict [("c", VInt 1)]]).
Proof.
  split; [reflexivity|].
  destruct (evaluate_locals_wrap_top_level_dicts_only
              [("l", VList [VDict [("c", VInt 1)]])]
              [("l", VList [VDict [("c", VInt 1)]])] eq_refl eq_refl)
    as [_ H].
  apply (H "l" (VList [VDict [("c", VInt 1)]]) eq_refl). discriminate.
Defined.

(** X15. Past the guard and the conversion, [execute] calls [exec] with
    the script and two mappings, and what it raises and leaves in the data
    is read off the result of that call.  The locals mapping has exactly
    the keys of the data, none of which is a name bound by the engine or by
    the extensions; in the globals every name of the engine and every key
    of the data is bound, and every extension name holds the extension's
    value. *)
Theorem execute_scopes_keep_names_apart
        (py_repr : string -> string) (task : Task) (s : state) (ext : dict) :
  (forall k, ~ collides (self_globals s) ext (data_obj s) k) ->
  fst (convertToBox (data_obj s)) = None ->
  exists globals locals,
    (forall py_exec script,
        execute py_exec py_repr task script ext s
        = (match raised (py_exec script globals locals) with
           | None => Return tt
           | Some (err, tb) => handle_error task script err tb
           end,
           {| self_globals := self_globals s;
              data_obj := locals_after (py_exec script globals locals) |}))
    /\ locals = snd (convertToBox (data_obj s))
    /\ forall k,
        dict_mem k locals = dict_mem k (data_obj s)
        /\ (dict_mem k (self_globals s) = true \/ dict_mem k ext = true ->
            dict_mem k locals = false)
        /\ (dict_mem k (data_obj s) = true -> dict_mem k globals = true)
        /\ (dict_mem k (self_globals s) = true -> dict_mem k globals = true)
        /\ (distinct (map fst ext) = true ->
            forall v, dict_get k ext = Some v ->
                      dict_get k globals = Some v).
Proof.
  intros Hnone Hc. exists (exec_globals s ext), (exec_locals s).
  split; [|split; [reflexivity|]].
  - intros py_exec script.
    rewrite (execute_no_collision _ _ _ _ _ _ Hnone).
    unfold execute_after_guard, exec_globals, exec_locals.
    destruct (convertToBox (data_obj s)) as [[e|] data]; [discriminate|].
    reflexivity.
  - intros k.
    assert (Hloc : dict_mem k (exec_locals s) = dict_mem k (data_obj s))
      by (apply dict_mem_same_keys; apply convertToBox_keys).
    split; [exact Hloc|]. split; [|split; [|split]].
    + intros Hk. rewrite Hloc.
      destruct (dict_mem k (data_obj s)) eqn:E; [|reflexivity].
      exfalso. apply (Hnone k). now split.
    + intros Hk. unfold exec_globals. rewrite !dict_mem_update, Hloc, Hk.
      now rewrite orb_true_r.
    + intros Hk. unfold exec_globals. rewrite !dict_mem_update, Hk.
      reflexivity.
    + intros Hd v Hv. unfold exec_globals.
      rewrite dict_get_update, dict_get_rev_unique, Hv; [reflexivity|].
      now apply distinct_NoDup.
Qed.

Lemma execute_scopes_keep_names_apart_witness :
  exists globals locals,
    execute Mini.exec Mini.repr demo_task "r = f" [("f", VInt 1)]
            (state_of [("d", VDict [])])
    = (Return tt,
       {| self_globals := PythonScriptEngine_init [];
          data_obj := locals_after (Mini.exec "r = f" globals locals) |})
    /\ locals = [("d", VBox [] [])]
    /\ dict_mem "Box" locals = false
    /\ dict_get "f" globals = Some (VInt 1).
Proof.
  assert (Hnone : forall k,
             ~ collides (self_globals (state_of [("d", VDict [])]))
                        [("f", VInt 1)]
                        (data_obj (state_of [("d", VDict [])])) k).
  { intros k [Hk Hc]. apply dict_mem_In in Hk.
    destruct Hk as [<-|[]]. destruct Hc as [Hc|Hc]; discriminate Hc. }
  destruct (execute_scopes_keep_names_apart Mini.repr demo_task
              (state_of [("d", VDict [])]) [("f", VInt 1)] Hnone eq_refl)
    as (globals & locals & Hexec & Hloc & Hk).
  exists globals, locals. split; [|split; [exact Hloc|split]].
  - rewrite (Hexec Mini.exec "r = f").
    destruct (raised (Mini.exec "r = f" globals locals)) as [[err tb]|] eqn:E;
      [|reflexivity].
    exfalso. subst locals.
    destruct (Hk "f") as (_ & _ & _ & _ & Hf).
    specialize (Hf eq_refl (VInt 1) eq_refl).
    assert (Hr : resolve "f" globals (snd (convertToBox
                   (data_obj (state_of [("d", VDict [])])))) = Some (VInt 1))
      by (unfold resolve; simpl; exact Hf).
    apply (resolve_with_builtins "f") in Hr; [|discriminate].
    apply Mini_load_name_resolve in Hr.
    revert E.
    change (Mini.exec "r = f" globals
              (snd (convertToBox (data_obj (state_of [("d", VDict [])])))))
      with (match Mini.load_name "f" (Mini.with_builtins globals)
                    (snd (convertToBox
                            (data_obj (state_of [("d", VDict [])])))) with
            | Return v =>
                {| globals_after := Mini.with_builtins globals;
                   locals_after :=
                     dict_set "r" v
                       (snd (convertToBox
                               (data_obj (state_of [("d", VDict [])]))));
                   raised := None |}
            | Raise err =>
                {| globals_after := Mini.with_builtins globals;
                   locals_after :=
                     snd (convertToBox
                            (data_obj (state_of [("d", VDict [])])));
                   raised := Some (err, [ Mini.engine_frame;
                                          {| filename := "<string>";
                                             lineno := 1 |} ]) |}
            end).
    rewrite Hr. discriminate.
  - subst locals. reflexivity.
  - destruct (Hk "f") as (_ & _ & _ & _ & Hf).
    exact (Hf eq_refl (VInt 1) eq_refl).
Defined.

(** ** The handler of [execute] *)

Lemma locate_out_of_range script tb : forall ln el,
  (exists f, In f tb /\ is_script_frame f = true
             /\ (List.length (splitlines script) < Pos.to_nat (lineno f))%nat) ->
  locate script tb ln el
  = Raise (PyExc "IndexError" [VStr "list index out of range"]).
Proof.
  induction tb as [|g tb IH]; intros ln el (f & Hin & Hf & Hlt).
  - destruct Hin.
  - simpl. fold (is_script_frame g). destruct Hin as [->|Hin].
    + rewrite Hf. unfold list_index.
      destruct (nth_error (splitlines script) (Pos.to_nat (lineno f) - 1))
        as [line|] eqn:En.
      * assert (Hs : nth_error (splitlines script)
                               (Pos.to_nat (lineno f) - 1) <> None)
          by (rewrite En; discriminate).
        apply nth_error_Some in Hs. lia.
      * reflexivity.
    + assert (Hex : exists f, In f tb /\ is_script_frame f = true
                     /\ (List.length (splitlines script)
                         < Pos.to_nat (lineno f))%nat)
        by (exists f; auto).
      destruct (is_script_frame g); [|now apply IH].
      unfold list_index.
      destruct (nth_error (splitlines script) (Pos.to_nat (lineno g) - 1));
        [now apply IH | reflexivity].
Qed.

(** X16. The handler of [execute], for an error of class Exception whose
    first argument, if any, is a str.  It indexes [script.splitlines()]
    for every frame of the traceback whose file is ['<string>'], not only
    for the last one.  When each of these frames has a line number within
    the lines of the script, the handler raises the Execution error with
    the number and the text of the last of them, or with line 0 and the
    empty text when there is none; as soon as one of them, even an earlier
    one, lies past the last line, the handler raises IndexError and no
    Execution error. *)
Theorem handler_indexes_every_script_frame
        (task : Task) (script : string) (cls : string) (args : list value)
        (detail : string) (tb : list FrameSummary) :
  is_Exception (PyExc cls args) = true ->
  error_detail cls args = Return detail ->
  ((forall f, In f tb -> is_script_frame f = true ->
      (Pos.to_nat (lineno f) <= List.length (splitlines script))%nat) ->
   handle_error task script (PyExc cls args) tb
   = Raise (WorkflowTaskExecException task detail (Some (PyExc cls args))
              (Some (fst (located script tb)))
              (Some (snd (located script tb)))))
  /\ ((exists f, In f tb /\ is_script_frame f = true
         /\ (List.length (splitlines script) < Pos.to_nat (lineno f))%nat) ->
      handle_error task script (PyExc cls args) tb
      = Raise (PyExc "IndexError" [VStr "list index out of range"]))
  /\ (filter is_script_frame tb = [] ->
      located script tb = (0%Z, EmptyString)).
Proof.
  intros Hex Hd. unfold handle_error. rewrite Hex, Hd. split; [|split].
  - intros Hin.
    destruct (locate_total script tb 0%Z EmptyString Hin) as [r Hr].
    rewrite Hr. apply locate_last in Hr. unfold located.
    destruct r as [ln el].
    destruct (last_script_frame tb) as [f|]; injection Hr as -> ->;
      reflexivity.
  - intros Hout. now rewrite (locate_out_of_range script tb 0%Z EmptyString Hout).
  - intros Hf. unfold located, last_script_frame. now rewrite Hf.
Qed.

Lemma handler_indexes_every_script_frame_witness :
  handle_error demo_task "exec(s)" (PyExc "ZeroDivisionError"
                                          [VStr "division by zero"])
               [Mini.engine_frame;
                {| filename := "<string>"; lineno := 1 |};
                {| filename := "<string>"; lineno := 3 |}]
  = Raise (PyExc "IndexError" [VStr "list index out of range"])
  /\ handle_error demo_task "f()" (PyExc "ValueError" [])
                  [Mini.engine_frame;
                   {| filename := "<string>"; lineno := 1 |};
                   {| filename := "lib.py"; lineno := 7 |}]
     = Raise (WorkflowTaskExecException demo_task "ValueError"
                (Some (PyExc "ValueError" [])) (Some 1%Z) (Some "f()")).
Proof.
  split.
  - apply (handler_indexes_every_script_frame demo_task "exec(s)"
             "ZeroDivisionError" [VStr "division by zero"]
             "ZeroDivisionError:division by zero" _ eq_refl eq_refl).
    exists {| filename := "<string>"; lineno := 3 |}.
    split; [right; right; left; reflexivity|].
    split; [reflexivity | vm_compute; lia].
  - destruct (handler_indexes_every_script_frame demo_task "f()"
                "ValueError" [] "ValueError"
                [Mini.engine_frame;
                 {| filename := "<string>"; lineno := 1 |};
                 {| filename := "lib.py"; lineno := 7 |}] eq_refl eq_refl)
      as [H _].
    apply H. intros f [<-|[<-|[<-|[]]]] Hf; try discriminate Hf.
    vm_compute. lia.
Defined.
